(** * DCI tooling: trace synthesis and result validation

  A shallow embedding of [generate_traces.py] and [validate_rmt_dci.py].

  Conventions of the embedding:
  - Python [int] is [Z]; a finite Python [float] is held as the rational
    [Qc] that it denotes (Python compares [int] with [float] exactly), and a
    binary64 product, sum or difference is the exact one rounded by
    [Py.round64];
  - a raised exception is the left summand of [Py.result];
  - the pseudo-random generator is an explicit stream of the values that
    successive calls of [random.random()] return;
  - [dict] is [gmap], [set] is [gset]. *)

From Stdlib Require Import ZArith QArith Qcanon Qcabs DecimalString.
From Stdlib Require DecimalPos DecimalZ.
From stdpp Require Import gmap strings list fin_maps.

Local Open Scope string_scope.
Local Open Scope list_scope.
#[local] Set Warnings "-clear-no-such-hyp".

(** ** Python run-time: exceptions, results, a few builtins *)

Module Py.

Inductive exn : Type :=
| SystemExit (code : Z)
| ValueError
| KeyError (key : string)
| UnboundLocalError (name : string)
| OverflowError.

Definition result (A : Type) : Type := exn + A.

Definition ret {A} (a : A) : result A := inr a.
Definition raise {A} (e : exn) : result A := inl e.

Definition bind {A B} (r : result A) (k : A → result B) : result B :=
  match r with
  | inl e => inl e
  | inr a => k a
  end.

#[global] Instance exn_eq_dec : EqDecision exn.
Proof. solve_decision. Defined.

(** The value of a call that returned ([None] for one that raised). *)
Definition value {A} (r : result A) : option A :=
  match r with
  | inr a => Some a
  | inl _ => None
  end.

(** Status with which the interpreter process ends when the script's
    [main()] has this outcome: [sys.exit(c)] gives [c], any other uncaught
    exception gives 1, a normal return gives 0. *)
Definition exit_status {A} (r : result A) : Z :=
  match r with
  | inr _ => 0
  | inl (SystemExit c) => c
  | inl _ => 1
  end.

(** [str(n)] for an [int]. *)
Definition str (n : Z) : string := NilZero.string_of_int (Z.to_int n).

(** The exact value of an [int], for comparisons with a [float]. *)
Definition of_int (n : Z) : Qc := Qc_of_Z n.

(** *** Binary64 arithmetic

    [round64 x] is the binary64 value nearest to [x], ties going to the even
    significand: 53 significant bits, least exponent -1074.  The exponent is
    not bounded above, so that a result of magnitude [2^1024] or more stands
    for an infinity. *)

(** [n/d] rounded to the nearest integer, ties to even ([0 <= n], [0 < d]). *)
Definition rne (n d : Z) : Z :=
  let q := (n / d)%Z in
  let r := (n mod d)%Z in
  match (2 * r ?= d)%Z with
  | Lt => q
  | Gt => (q + 1)%Z
  | Eq => if Z.even q then q else (q + 1)%Z
  end.

(** Exponent of the last significant bit of [n/d] ([0 < n], [0 < d]):
    [floor(log2(n/d)) - 52], and -1074 for the subnormal numbers. *)
Definition ulp_exp (n d : Z) : Z :=
  let k := (Z.log2 n - Z.log2 d)%Z in
  let reaches :=
    if (0 <=? k)%Z then (d * 2 ^ k <=? n)%Z else (d <=? n * 2 ^ (- k))%Z in
  let t := if reaches then k else (k - 1)%Z in
  Z.max (t - 52) (-1074).

Definition round64 (x : Qc) : Qc :=
  let n := Qnum (this x) in
  let d := Z.pos (Qden (this x)) in
  if (n =? 0)%Z then 0%Qc
  else
    let a := Z.abs n in
    let e := ulp_exp a d in
    if (0 <=? e)%Z
    then Qc_of_Z (Z.sgn n * rne a (d * 2 ^ e) * 2 ^ e)
    else Q2Qc (Qmake (Z.sgn n * rne (a * 2 ^ (- e)) d) (Z.to_pos (2 ^ (- e)))).

(** A decimal [float] literal such as [0.7]: the binary64 value nearest to
    the decimal. *)
Definition float_lit (q : Q) : Qc := round64 (Q2Qc q).

Definition fadd (x y : Qc) : Qc := round64 (x + y)%Qc.
Definition fsub (x y : Qc) : Qc := round64 (x - y)%Qc.
Definition fmul (x y : Qc) : Qc := round64 (x * y)%Qc.

(** The least magnitude of an [int] that no longer converts to a [float]:
    from here on the nearest binary64 value would be [2^1024]. *)
Definition float_limit : Z := (2 ^ 1024 - 2 ^ 970)%Z.

(** An [int] operand of a [float] operation is converted first, and the
    conversion raises [OverflowError] when the integer is too large. *)
Definition float_of_int (n : Z) : result Qc :=
  if bool_decide (float_limit ≤ Z.abs n)%Z then raise OverflowError
  else ret (round64 (Qc_of_Z n)).

(** [sum(...)] over integers. *)
Definition sum (l : list Z) : Z := foldl Z.add 0%Z l.

(** [x <= y] on numbers, as a boolean. *)
Definition le (x y : Qc) : bool := bool_decide (x ≤ y)%Qc.
Definition lt (x y : Qc) : bool := bool_decide (x < y)%Qc.
Definition ge (x y : Qc) : bool := le y x.
Definition gt (x y : Qc) : bool := lt y x.

(** [xs[i]] on a list known to be long enough; the empty string stands for
    the [IndexError] case, which the callers exclude by testing [len]. *)
Definition item (xs : list string) (i : nat) : string :=
  default EmptyString (xs !! i).

End Py.

Notation "x <- r ;; k" := (Py.bind r (λ x, k))
  (at level 100, r at next level, right associativity, only parsing).

(** ** generate_traces.py *)

Module GenerateTraces.

(** [Tuple[str, str, int]]: caller, callee, frequency. *)
Definition CallPattern : Type := string * string * Z.

Definition caller_of (p : CallPattern) : string := p.1.1.
Definition callee_of (p : CallPattern) : string := p.1.2.
Definition freq_of (p : CallPattern) : Z := p.2.

(** One element of the returned list: the Zipkin-style dictionary
    [{"traceId", "id", "localEndpoint": {"serviceName"},
      "remoteEndpoint": {"serviceName"}}]. *)
Record Trace : Type := mkTrace {
  traceId : string;
  id : string;
  localEndpoint : string;
  remoteEndpoint : string
}.

(** The random source: [rnd k] is what the [k]-th call of
    [random.random()] returns. *)
Definition Rng : Type := nat → Qc.

(** [random.uniform(a, b)] is [a + (b - a) * random()] on two [int]
    arguments: the product converts [b - a], the sum converts [a], and both
    operations round. *)
Definition uniform (rnd : Rng) (k : nat) (a b : Z) : Py.result Qc :=
  width <- Py.float_of_int (b - a) ;;
  let x := Py.fmul width (rnd k) in
  low <- Py.float_of_int a ;;
  Py.ret (Py.fadd low x).

(** [sum(freq for _, _, freq in call_patterns)] *)
Definition total_frequency (call_patterns : list CallPattern) : Z :=
  Py.sum (freq_of <$> call_patterns).

(** The inner [for caller, callee, freq in call_patterns] loop.  [bound] is
    the current binding of the loop variables [caller, callee, freq]
    ([None] while they are unbound); in Python they outlive the loop, so the
    loop returns their final binding. *)
Fixpoint select_loop (rand_val : Qc) (cumulative : Z)
    (bound : option CallPattern) (call_patterns : list CallPattern)
    : option CallPattern :=
  match call_patterns with
  | [] => bound
  | p :: rest =>
      let cumulative := (cumulative + freq_of p)%Z in
      if Py.le rand_val (Py.of_int cumulative) then Some p
      else select_loop rand_val cumulative (Some p) rest
  end.

(** Selection from scratch: [cumulative = 0], loop variables unbound. *)
Definition select_pattern (call_patterns : list CallPattern) (rand_val : Qc)
    : option CallPattern :=
  select_loop rand_val 0 None call_patterns.

(** Local variables of [generate_microservice_traces] that live across
    iterations of the outer loop. *)
Record Locals : Type := mkLocals {
  traces : list Trace;
  trace_id : Z;
  draws : nat;                   (* calls of the random source so far *)
  loop_vars : option CallPattern (* caller, callee, freq *)
}.

(** One iteration of [for _ in range(num_traces)]. *)
Definition trace_step (rnd : Rng) (call_patterns : list CallPattern)
    (total : Z) (st : Locals) : Py.result Locals :=
  rand_val <- uniform rnd (draws st) 0 total ;;
  let vars := select_loop rand_val 0 (loop_vars st) call_patterns in
  match vars with
  | None => Py.raise (Py.UnboundLocalError "caller")
  | Some p =>
      let trace := {| traceId := Py.str (trace_id st);
                      id := Py.str (trace_id st);
                      localEndpoint := caller_of p;
                      remoteEndpoint := callee_of p |} in
      Py.ret {| traces := traces st ++ [trace];
                trace_id := trace_id st + 1;
                draws := S (draws st);
                loop_vars := vars |}
  end.

Fixpoint trace_loop (rnd : Rng) (call_patterns : list CallPattern)
    (total : Z) (n : nat) (st : Locals) : Py.result Locals :=
  match n with
  | O => Py.ret st
  | S n' =>
      st' <- trace_step rnd call_patterns total st ;;
      trace_loop rnd call_patterns total n' st'
  end.

(** [range(num_traces)] runs [max(num_traces, 0)] times. *)
Definition generate_microservice_traces (rnd : Rng) (services : list string)
    (call_patterns : list CallPattern) (num_traces : Z)
    : Py.result (list Trace) :=
  let st0 := {| traces := []; trace_id := 1; draws := 0;
                loop_vars := None |} in
  let total := total_frequency call_patterns in
  st <- trace_loop rnd call_patterns total (Z.to_nat num_traces) st0 ;;
  Py.ret (traces st).

(** [create_common_patterns()]: the catalog, as the dictionary literal of
    the source, name to (services, calls). *)
Definition Pattern : Type := list string * list CallPattern.

Definition simple_chain : Pattern :=
  (["frontend"; "api-gateway"; "user-service"; "database"],
   [("frontend", "api-gateway", 10%Z);
    ("api-gateway", "user-service", 8%Z);
    ("user-service", "database", 6%Z)]).

Definition ecommerce : Pattern :=
  (["web"; "api"; "user"; "order"; "payment"; "inventory"; "notification"],
   [("web", "api", 15%Z);
    ("api", "user", 8%Z);
    ("api", "order", 6%Z);
    ("api", "payment", 4%Z);
    ("order", "inventory", 3%Z);
    ("order", "payment", 2%Z);
    ("payment", "notification", 1%Z)]).

Definition microservice_mesh : Pattern :=
  (["gateway"; "auth"; "user"; "product"; "order"; "payment"; "shipping";
    "analytics"],
   [("gateway", "auth", 12%Z);
    ("gateway", "user", 10%Z);
    ("gateway", "product", 8%Z);
    ("gateway", "order", 6%Z);
    ("user", "auth", 4%Z);
    ("order", "payment", 3%Z);
    ("order", "shipping", 2%Z);
    ("order", "analytics", 1%Z);
    ("payment", "analytics", 1%Z)]).

Definition event_driven : Pattern :=
  (["producer"; "event-bus"; "consumer1"; "consumer2"; "consumer3";
    "database"],
   [("producer", "event-bus", 20%Z);
    ("event-bus", "consumer1", 8%Z);
    ("event-bus", "consumer2", 6%Z);
    ("event-bus", "consumer3", 4%Z);
    ("consumer1", "database", 3%Z);
    ("consumer2", "database", 2%Z)]).

Definition create_common_patterns : list (string * Pattern) :=
  [("simple_chain", simple_chain);
   ("ecommerce", ecommerce);
   ("microservice_mesh", microservice_mesh);
   ("event_driven", event_driven)].

(** [patterns[name]] / [name in patterns] *)
Fixpoint patterns_get (patterns : list (string * Pattern)) (name : string)
    : option Pattern :=
  match patterns with
  | [] => None
  | (k, v) :: rest =>
      if decide (k = name) then Some v else patterns_get rest name
  end.

(** *** The expected-DCI report printed at the end of [main] *)

(** [for service in services: service_calls[service] = set()] *)
Definition init_service_calls (services : list string)
    : gmap string (gset string) :=
  foldl (λ m service, <[service := ∅]> m) ∅ services.

(** [for caller, callee, _ in calls: service_calls[caller].add(callee)];
    [service_calls[caller]] raises [KeyError] for a caller that is no key. *)
Fixpoint add_calls (calls : list CallPattern)
    (service_calls : gmap string (gset string))
    : Py.result (gmap string (gset string)) :=
  match calls with
  | [] => Py.ret service_calls
  | p :: rest =>
      match service_calls !! caller_of p with
      | None => Py.raise (Py.KeyError (caller_of p))
      | Some callees =>
          add_calls rest
            (<[caller_of p := callees ∪ {[callee_of p]}]> service_calls)
      end
  end.

(** The chained conditional expression that names the coupling level. *)
Definition coupling_status (dci : Qc) : string :=
  if Py.ge dci (Q2Qc (7 # 10)) then "High"
  else if Py.ge dci (Q2Qc (4 # 10)) then "Moderate"
  else if Py.gt dci 0%Qc then "Low"
  else "No".

(** [actual_calls / max_possible if max_possible > 0 else 0] *)
Definition dci_of (actual_calls max_possible : Z) : Qc :=
  if bool_decide (0 < max_possible)%Z
  then (Py.of_int actual_calls / Py.of_int max_possible)%Qc
  else 0%Qc.

(** One printed line
    [{service}: {actual_calls}/{max_possible} = {dci} ({status} Coupling)]. *)
Record DciLine : Type := mkDciLine {
  line_service : string;
  line_actual_calls : Z;
  line_max_possible : Z;
  line_dci : Qc;
  line_status : string
}.

#[global] Instance DciLine_eq_dec : EqDecision DciLine.
Proof. solve_decision. Defined.

Fixpoint report_lines (service_calls : gmap string (gset string))
    (max_possible : Z) (services : list string)
    : Py.result (list DciLine) :=
  match services with
  | [] => Py.ret []
  | service :: rest =>
      match service_calls !! service with
      | None => Py.raise (Py.KeyError service)
      | Some callees =>
          let actual_calls := Z.of_nat (size callees) in
          let dci := dci_of actual_calls max_possible in
          let status := coupling_status dci in
          lines <- report_lines service_calls max_possible rest ;;
          Py.ret (mkDciLine service actual_calls max_possible dci status
                    :: lines)
      end
  end.

Definition expected_dci (services : list string) (calls : list CallPattern)
    : Py.result (list DciLine) :=
  service_calls <- add_calls calls (init_service_calls services) ;;
  let max_possible := (Z.of_nat (length services) - 1)%Z in
  report_lines service_calls max_possible services.

(** *** [main] *)

(** What a run that reaches the end of [main] has produced: the file it
    wrote and the expected-DCI lines it printed. *)
Record Output : Type := mkOutput {
  output_file : string;
  written : list Trace;
  expected : list DciLine
}.

Section Main.

(** The builtin [int(s)] on a command-line argument: [None] when it
    raises [ValueError]. *)
Variable py_int : string → option Z.

Definition main (rnd : Rng) (argv : list string) : Py.result Output :=
  if bool_decide (length argv < 2)%nat then Py.raise (Py.SystemExit 1)
  else
    let pattern_name := Py.item argv 1 in
    num_traces <-
      (if bool_decide (2 < length argv)%nat
       then match py_int (Py.item argv 2) with
            | Some n => Py.ret n
            | None => Py.raise Py.ValueError
            end
       else Py.ret 100%Z) ;;
    let patterns := create_common_patterns in
    match patterns_get patterns pattern_name with
    | None => Py.raise (Py.SystemExit 1)
    | Some pattern =>
        let services := pattern.1 in
        let calls := pattern.2 in
        traces <- generate_microservice_traces rnd services calls
                    num_traces ;;
        let output_file := "traces_" +:+ pattern_name +:+ ".json" in
        lines <- expected_dci services calls ;;
        Py.ret (mkOutput output_file traces lines)
    end.

End Main.

(** *** Wording of the specification, for comparison with the code *)

(** "count of unique callee values across all CallPatterns where
    caller == S" *)
Definition distinctCallees (calls : list CallPattern) (S : string) : nat :=
  length (remove_dups
            (callee_of <$> filter (λ p, caller_of p = S) calls)).

(** "the first pattern whose accumulated sum is >= u": [p] is preceded by
    [pre], no accumulated sum up to the end of [pre] reaches [u], and the
    sum accumulated at [p] does. *)
Definition first_reaching (call_patterns : list CallPattern) (u : Qc)
    (p : CallPattern) : Prop :=
  ∃ pre post,
    call_patterns = pre ++ p :: post ∧
    (∀ k, (0 < k ≤ length pre)%nat →
          (Py.of_int (total_frequency (take k pre)) < u)%Qc) ∧
    (u ≤ Py.of_int (total_frequency (pre ++ [p])))%Qc.

(** The record that one iteration appends when the selection yields [p]. *)
Definition trace_of (trace_id : Z) (p : CallPattern) : Trace :=
  {| traceId := Py.str trace_id; id := Py.str trace_id;
     localEndpoint := caller_of p; remoteEndpoint := callee_of p |}.

(** Records [new] are numbered from [first] on and each carries the
    endpoints of a pattern of [ps]. *)
Definition numbered_from (ps : list CallPattern) (first : Z)
    (new : list Trace) : Prop :=
  ∀ (i : nat) t, new !! i = Some t →
    ∃ p, p ∈ ps ∧ t = trace_of (first + Z.of_nat i) p.

(** The callees recorded for [S] once every call has been added. *)
Definition callees_set (calls : list CallPattern) (S : string)
    : gset string :=
  list_to_set (callee_of <$> filter (λ p, caller_of p = S) calls).

(** Two call lists with the same caller→callee edges, whatever their
    order, multiplicity and weights. *)
Definition has_edge (calls : list CallPattern) (a b : string) : Prop :=
  ∃ p, p ∈ calls ∧ caller_of p = a ∧ callee_of p = b.

Definition same_edges (calls calls' : list CallPattern) : Prop :=
  ∀ a b, has_edge calls a b ↔ has_edge calls' a b.

(** The line that the report prints for [S]. *)
Definition line_for (services : list string) (calls : list CallPattern)
    (S : string) : DciLine :=
  let actual_calls := Z.of_nat (distinctCallees calls S) in
  let max_possible := (Z.of_nat (length services) - 1)%Z in
  mkDciLine S actual_calls max_possible
            (dci_of actual_calls max_possible)
            (coupling_status (dci_of actual_calls max_possible)).

(** The value of [rand_val] in iteration [i] (counted from 0) of the outer
    loop: the [i]-th draw, scaled to the total frequency. *)
Definition rand_val_at (rnd : Rng) (call_patterns : list CallPattern)
    (i : nat) : Py.result Qc :=
  uniform rnd i 0 (total_frequency call_patterns).

(** The total frequency converts to a [float]. *)
Definition total_fits (call_patterns : list CallPattern) : Prop :=
  (Z.abs (total_frequency call_patterns) < Py.float_limit)%Z.

(** The count that [main] passes on: the third argument read as an integer,
    100 when there is none. *)
Definition requested (py_int : string → option Z) (argv : list string)
    : option Z :=
  if bool_decide (2 < length argv)%nat then py_int (Py.item argv 2)
  else Some 100%Z.

(** Referential integrity of a template: callers and callees are listed
    services and no service calls itself. *)
Definition closed_template (services : list string)
    (calls : list CallPattern) : Prop :=
  Forall (λ p, caller_of p ∈ services ∧ callee_of p ∈ services ∧
               caller_of p ≠ callee_of p) calls.

End GenerateTraces.

(** ** validate_rmt_dci.py *)

Module ValidateRmtDci.

(** A row of the DCI results table (columns [Service], [DCI], [Status]).  A
    score cell holds the binary64 value that [pd.read_csv] has parsed; a
    [Status] cell can be missing. *)
Record DciRow : Type := mkDciRow {
  Service : string;
  DCI : Qc;
  Status : option string
}.

(** A row of the reference table (columns [Service], [MCI_Afferent],
    [MCI_Efferent]). *)
Record MciRow : Type := mkMciRow {
  mci_Service : string;
  MCI_Afferent : Qc;
  MCI_Efferent : option Qc (* the column is optional *)
}.

(** A row of [pd.merge(dci_df, mci_df, on='Service', how='inner')]. *)
Record MergedRow : Type := mkMergedRow {
  m_Service : string;
  m_DCI : Qc;
  m_Status : option string;
  m_MCI_Afferent : Qc;
  m_MCI_Efferent : option Qc
}.

(** A merged row once the [Difference] column has been assigned. *)
Record ComparisonRow : Type := mkComparisonRow {
  c_row : MergedRow;
  Difference : Qc
}.

#[global] Instance DciRow_eq_dec : EqDecision DciRow.
Proof. solve_decision. Defined.
#[global] Instance MciRow_eq_dec : EqDecision MciRow.
Proof. solve_decision. Defined.
#[global] Instance MergedRow_eq_dec : EqDecision MergedRow.
Proof. solve_decision. Defined.
#[global] Instance ComparisonRow_eq_dec : EqDecision ComparisonRow.
Proof. solve_decision. Defined.

(** A row of [mci_comparison_template.csv]: the last three cells are empty
    strings. *)
Record TemplateRow : Type := mkTemplateRow {
  t_Service : string;
  t_DCI : Qc;
  t_MCI_Afferent : string;
  t_MCI_Efferent : string;
  t_Notes : string
}.

(** A table as [pd.read_csv] returns it: the names of its columns and its
    rows.  The rows carry the cells of the columns that the script reads from
    the table: [Service], [DCI] and [Status] of the results, [Service] and
    [MCI_Afferent] of the reference; the cells of a column that the table
    lacks are never read. *)
Record DciTable : Type := mkDciTable {
  dci_columns : list string;
  dci_rows : list DciRow
}.

Record MciTable : Type := mkMciTable {
  mci_columns : list string;
  mci_rows : list MciRow
}.

(** The results table has the three columns of its description. *)
Definition documented (t : DciTable) : Prop :=
  "Service" ∈ dci_columns t ∧ "DCI" ∈ dci_columns t ∧
  "Status" ∈ dci_columns t.


(** What the script can observe of the file system: [pd.read_csv(f)] on a
    results table and on a reference table ([None] when it raises), and
    [os.path.exists(f)]. *)
Record World : Type := mkWorld {
  read_dci_csv : string → option DciTable;
  read_mci_csv : string → option MciTable;
  path_exists : string → bool
}.

(** [load_dci_results]: inside the [try], the file is read and
    [df['DCI'].mean()] is printed; any exception, the [KeyError] of a table
    without a [DCI] column included, is caught and [None] returned. *)
Definition load_dci_results (w : World) (csv_file : string)
    : option DciTable :=
  match read_dci_csv w csv_file with
  | Some df =>
      if bool_decide ("DCI" ∈ dci_columns df) then Some df else None
  | None => None
  end.

(** [Series.value_counts()]: each value that occurs, with the number of its
    occurrences; missing cells are not counted. *)
Definition value_counts (column : list (option string)) : gmap string nat :=
  foldl (λ counts cell,
           match cell with
           | Some v => <[v := S (default 0%nat (counts !! v))]> counts
           | None => counts
           end)
        ∅ column.

(** The figures [analyze_dci_results] prints (the formatted minimum,
    maximum, mean and standard deviation apart). *)
Record Analysis : Type := mkAnalysis {
  status_counts : gmap string nat;
  high_coupling : list DciRow;
  isolated : list DciRow
}.

(** The figures for the rows of a table that has the columns read. *)
Definition analyze_dci_results (df : list DciRow) : Analysis :=
  {| status_counts := value_counts (Status <$> df);
     high_coupling := filter (λ r, (Py.float_lit (7 # 10) ≤ DCI r)%Qc) df;
     isolated := filter (λ r, DCI r = 0%Qc) df |}.

(** The call [analyze_dci_results(df)] on a loaded table: [df['Status']]
    raises [KeyError] when there is no such column, and so does
    [row['Service']] when a high-coupling or an isolated row is printed. *)
Definition call_analyze_dci_results (df : DciTable) : Py.result Analysis :=
  if bool_decide ("Status" ∈ dci_columns df) then
    let a := analyze_dci_results (dci_rows df) in
    if bool_decide ("Service" ∈ dci_columns df)
    then Py.ret a
    else
      match high_coupling a, isolated a with
      | [], [] => Py.ret a
      | _, _ => Py.raise (Py.KeyError "Service")
      end
  else Py.raise (Py.KeyError "Status").

(** Inner merge on [Service]: every pair of a left and a right row with the
    same key, in the order of the left rows. *)
Definition merge (dci_df : list DciRow) (mci_df : list MciRow)
    : list MergedRow :=
  d ← dci_df;
  m ← filter (λ m, mci_Service m = Service d) mci_df;
  [mkMergedRow (Service d) (DCI d) (Status d)
               (MCI_Afferent m) (MCI_Efferent m)].

(** [merged['Difference'] = abs(merged['DCI'] - merged['MCI_Afferent'])]:
    a binary64 subtraction, and its absolute value. *)
Definition assign_difference (merged : list MergedRow)
    : list ComparisonRow :=
  (λ r, mkComparisonRow r (Qcabs (Py.fsub (m_DCI r) (m_MCI_Afferent r))))
    <$> merged.

(** [merged[merged['Difference'] > 0.3]] *)
Definition high_diff (merged : list ComparisonRow) : list ComparisonRow :=
  filter (λ r, (Py.float_lit (3 # 10) < Difference r)%Qc) merged.

(** [merged['DCI']] and [merged['MCI_Afferent']] can be read, the first from
    the cells of the results and the second from the cells of the reference:
    [pd.merge] renames a column that both tables have besides the key (to
    [DCI_x] and [DCI_y], say), and the lookup of the plain name then raises
    [KeyError].  No other column is read after the merge, so that a second
    [Status] column, renamed as well, does no harm. *)
Definition merged_columns_readable (dci_columns mci_columns : list string)
    : bool :=
  bool_decide ("DCI" ∈ dci_columns) && bool_decide ("DCI" ∉ mci_columns) &&
  bool_decide ("MCI_Afferent" ∈ mci_columns) &&
  bool_decide ("MCI_Afferent" ∉ dci_columns).

(** [compare_with_mci]: the merged table when the reference file is named,
    exists, loads, can be merged on [Service] (a [KeyError] when either
    table lacks the column), shares a service with the results, and [DCI]
    and [MCI_Afferent] can be read from the merged table; [None] otherwise,
    every exception after the existence test being caught by the [except]
    clause.  The correlation it prints in between is a floating-point figure
    computed by the data-frame library and is left out. *)
Definition compare_with_mci (w : World) (dci_df : DciTable)
    (mci_data_file : option string) : option (list ComparisonRow) :=
  match mci_data_file with
  | Some f =>
      if bool_decide (f ≠ EmptyString) && path_exists w f then
        match read_mci_csv w f with
        | Some mci_df =>
            if bool_decide ("Service" ∈ dci_columns dci_df) &&
               bool_decide ("Service" ∈ mci_columns mci_df)
            then
              let merged := merge (dci_rows dci_df) (mci_rows mci_df) in
              if bool_decide (0 < length merged)%nat
              then
                if merged_columns_readable (dci_columns dci_df)
                                           (mci_columns mci_df)
                then Some (assign_difference merged)
                else None
              else None
            else None
        | None => None
        end
      else None
  | None => None
  end.

(** The rows of the template, for a table that has the columns read. *)
Definition create_comparison_template (dci_df : list DciRow)
    : list TemplateRow :=
  (λ r, mkTemplateRow (Service r) (DCI r)
                      EmptyString EmptyString EmptyString) <$> dci_df.

(** The call [create_comparison_template(dci_df)] on a loaded table:
    [dci_df[['Service', 'DCI']]] raises [KeyError] when a column is absent. *)
Definition call_create_comparison_template (dci_df : DciTable)
    : Py.result (list TemplateRow) :=
  if bool_decide ("Service" ∈ dci_columns dci_df) then
    if bool_decide ("DCI" ∈ dci_columns dci_df)
    then Py.ret (create_comparison_template (dci_rows dci_df))
    else Py.raise (Py.KeyError "DCI")
  else Py.raise (Py.KeyError "Service").

(** What a run of [main] did before it returned. *)
Inductive Report : Type :=
| Usage
| LoadFailed
| Compared (a : Analysis) (merged : option (list ComparisonRow))
| Templated (a : Analysis) (template : list TemplateRow).

Definition main (w : World) (argv : list string) : Py.result Report :=
  if bool_decide (length argv < 2)%nat then Py.ret Usage
  else
    let dci_file := Py.item argv 1 in
    let mci_file :=
      if bool_decide (2 < length argv)%nat then Some (Py.item argv 2)
      else None in
    match load_dci_results w dci_file with
    | None => Py.ret LoadFailed
    | Some dci_df =>
        a <- call_analyze_dci_results dci_df ;;
        match mci_file with
        | Some f =>
            if bool_decide (f ≠ EmptyString)
            then Py.ret (Compared a (compare_with_mci w dci_df mci_file))
            else
              template <- call_create_comparison_template dci_df ;;
              Py.ret (Templated a template)
        | None =>
            template <- call_create_comparison_template dci_df ;;
            Py.ret (Templated a template)
        end
    end.

(** The number of rows that a distribution accounts for: the sum of its
    counts. *)
Definition counts_total (counts : gmap string nat) : nat :=
  map_fold (λ _ n acc, (n + acc)%nat) 0%nat counts.

(** [Series.min()] and [Series.max()] of the [DCI] column; [None] stands for
    the [nan] of an empty column. *)
Definition Qc_min (x y : Qc) : Qc := if decide (x ≤ y)%Qc then x else y.
Definition Qc_max (x y : Qc) : Qc := if decide (x ≤ y)%Qc then y else x.

Definition series_min (column : list Qc) : option Qc :=
  match column with
  | [] => None
  | x :: rest => Some (foldl Qc_min x rest)
  end.

Definition series_max (column : list Qc) : option Qc :=
  match column with
  | [] => None
  | x :: rest => Some (foldl Qc_max x rest)
  end.

(** The [Min] and [Max] lines of the score statistics. *)
Definition score_min (df : list DciRow) : option Qc :=
  series_min (DCI <$> df).
Definition score_max (df : list DciRow) : option Qc :=
  series_max (DCI <$> df).

(** The tables of the join example: DCI rows svcA 0.8 and svcB 0.1,
    reference rows svcA 0.75 and svcC 0.2. *)
Definition example_dci : DciTable :=
  mkDciTable ["Service"; "DCI"; "Status"]
    [mkDciRow "svcA" (Py.float_lit (8 # 10)) (Some "High");
     mkDciRow "svcB" (Py.float_lit (1 # 10)) (Some "Low")].

Definition example_mci : MciTable :=
  mkMciTable ["Service"; "MCI_Afferent"]
    [mkMciRow "svcA" (Py.float_lit (75 # 100)) None;
     mkMciRow "svcC" (Py.float_lit (2 # 10)) None].

End ValidateRmtDci.

(** ** Properties of the pattern catalog *)

Module CatalogProperties.
Import GenerateTraces.

(** Every template of the catalog has call patterns, and all its callers
    are listed services. *)
Lemma catalog_well_formed name pattern :
  patterns_get create_common_patterns name = Some pattern →
  pattern.2 ≠ [] ∧ Forall (λ p, caller_of p ∈ pattern.1) pattern.2.
Proof.
  unfold create_common_patterns. cbn [patterns_get].
  repeat case_decide; intros Hp; try done; injection Hp as <-;
    (split; [done | apply (bool_decide_unpack _); by vm_compute]).
Qed.

(** The total weight of every template of the catalog converts to a float. *)
Lemma catalog_fits name pattern :
  patterns_get create_common_patterns name = Some pattern →
  total_fits pattern.2.
Proof.
  unfold create_common_patterns. cbn [patterns_get].
  repeat case_decide; intros Hp; try done; injection Hp as <-;
    by vm_compute.
Qed.

End CatalogProperties.

(** ** Bounds on binary64 rounding *)

Module FloatProperties.

Lemma rne_nonneg n d : (0 ≤ n)%Z → (0 < d)%Z → (0 ≤ Py.rne n d)%Z.
Proof.
  intros Hn Hd. unfold Py.rne.
  pose proof (Z.div_pos n d Hn Hd) as Hq.
  destruct (2 * (n mod d) ?= d)%Z; [destruct (Z.even (n / d))| |]; lia.
Qed.

Lemma rne_le n d m : (0 < d)%Z → (n ≤ m * d)%Z → (Py.rne n d ≤ m)%Z.
Proof.
  intros Hd Hle. unfold Py.rne.
  pose proof (Z.div_mod n d ltac:(lia)) as Hdm.
  pose proof (Z.mod_pos_bound n d Hd) as Hr.
  assert (Hq : (n / d ≤ m)%Z).
  { apply Z.div_le_upper_bound; lia. }
  destruct (decide (n / d = m)%Z) as [Heq|Hne].
  - assert (Hr0 : (n mod d = 0)%Z) by nia.
    rewrite Hr0.
    assert (Hc : (2 * 0 ?= d)%Z = Lt) by (apply Z.compare_lt_iff; lia).
    rewrite Hc. lia.
  - destruct (2 * (n mod d) ?= d)%Z; [destruct (Z.even (n / d))| |]; lia.
Qed.

Lemma ulp_exp_le_0 a d :
  (0 < a)%Z → (0 < d)%Z → (a < d * 2 ^ 53)%Z → (Py.ulp_exp a d ≤ 0)%Z.
Proof.
  intros Ha Hd Hlt. unfold Py.ulp_exp.
  set (k := (Z.log2 a - Z.log2 d)%Z).
  apply Z.max_lub; [|lia].
  destruct (Z.le_gt_cases k 52) as [Hk|Hk].
  { destruct (if (0 <=? k)%Z then _ else _); lia. }
  pose proof (Z.log2_spec a Ha) as [Ha1 Ha2].
  pose proof (Z.log2_spec d Hd) as [Hd1 Hd2].
  pose proof (Z.log2_nonneg d) as Hld.
  rewrite (proj2 (Z.leb_le 0 k)) by lia.
  destruct (d * 2 ^ k <=? a)%Z eqn:Hreach.
  - apply Z.leb_le in Hreach.
    assert (2 ^ 53 ≤ 2 ^ k)%Z by (apply Z.pow_le_mono_r; lia). nia.
  - destruct (Z.le_gt_cases k 53) as [Hk'|Hk']; [lia|].
    exfalso.
    assert (H54 : (2 ^ 54 ≤ 2 ^ k)%Z) by (apply Z.pow_le_mono_r; lia).
    assert (Hpow : (2 ^ Z.log2 a = 2 ^ Z.log2 d * 2 ^ k)%Z).
    { rewrite <- Z.pow_add_r by lia. f_equal. lia. }
    assert (Hsucc : (2 ^ Z.succ (Z.log2 d) = 2 * 2 ^ Z.log2 d)%Z).
    { rewrite Z.pow_succ_r by lia. done. }
    nia.
Qed.

Lemma round64_nonneg (x : Qc) : (0 ≤ x)%Qc → (0 ≤ Py.round64 x)%Qc.
Proof.
  intros Hx. unfold Py.round64.
  assert (Hn : (0 ≤ Qnum (this x))%Z).
  { unfold Qcle, Qle in Hx. simpl in Hx. lia. }
  destruct (Qnum (this x) =? 0)%Z eqn:Hz; [done|].
  apply Z.eqb_neq in Hz.
  rewrite Z.abs_eq by done. rewrite Z.sgn_pos by lia.
  set (n := Qnum (this x)) in *. set (d := Z.pos (Qden (this x))).
  set (e := Py.ulp_exp n d).
  destruct (0 <=? e)%Z eqn:He.
  - apply Z.leb_le in He. rewrite <- Z2Qc_inj_0, <- Z2Qc_inj_le.
    assert (0 < 2 ^ e)%Z by (apply Z.pow_pos_nonneg; lia).
    assert (0 ≤ Py.rne n (d * 2 ^ e))%Z by (apply rne_nonneg; lia).
    nia.
  - apply Z.leb_gt in He.
    assert (0 < 2 ^ (- e))%Z by (apply Z.pow_pos_nonneg; lia).
    assert (0 ≤ Py.rne (n * 2 ^ (- e)) d)%Z by (apply rne_nonneg; lia).
    unfold Qcle. cbn [this Q2Qc]. rewrite !Qred_correct.
    unfold Qle. cbn [Qnum Qden]. lia.
Qed.

Lemma round64_le_int (x : Qc) (T : Z) :
  (T < 2 ^ 53)%Z → (0 ≤ x)%Qc → (x ≤ Qc_of_Z T)%Qc →
  (Py.round64 x ≤ Qc_of_Z T)%Qc.
Proof.
  intros HT Hx HxT. unfold Py.round64.
  assert (Hn : (0 ≤ Qnum (this x))%Z).
  { unfold Qcle, Qle in Hx. simpl in Hx. lia. }
  assert (HnT : (Qnum (this x) ≤ T * Z.pos (Qden (this x)))%Z).
  { unfold Qcle in HxT. unfold Qc_of_Z in HxT. cbn [this Q2Qc] in HxT.
    unfold Qle in HxT. simpl in HxT. lia. }
  destruct (Qnum (this x) =? 0)%Z eqn:Hz.
  { apply Z.eqb_eq in Hz. rewrite <- Z2Qc_inj_0, <- Z2Qc_inj_le. lia. }
  apply Z.eqb_neq in Hz.
  rewrite Z.abs_eq by done. rewrite Z.sgn_pos by lia.
  set (n := Qnum (this x)) in *. set (d := Z.pos (Qden (this x))) in *.
  assert (Hd : (0 < d)%Z) by (unfold d; lia).
  pose proof (ulp_exp_le_0 n d ltac:(lia) Hd ltac:(nia)) as He.
  set (e := Py.ulp_exp n d) in *.
  destruct (0 <=? e)%Z eqn:He'.
  - apply Z.leb_le in He'. assert (e = 0%Z) as -> by lia.
    rewrite <- Z2Qc_inj_le.
    change (2 ^ 0)%Z with 1%Z. rewrite !Z.mul_1_r, Z.mul_1_l.
    by apply rne_le.
  - apply Z.leb_gt in He'.
    assert (HP : (0 < 2 ^ (- e))%Z) by (apply Z.pow_pos_nonneg; lia).
    assert (Hr : (Py.rne (n * 2 ^ (- e)) d ≤ T * 2 ^ (- e))%Z).
    { apply rne_le; [done | nia]. }
    unfold Qcle, Qc_of_Z. cbn [this Q2Qc]. rewrite !Qred_correct.
    unfold Qle. simpl. rewrite Z2Pos.id by done. lia.
Qed.

End FloatProperties.

(** ** Properties of the trace synthesizer *)

Module TraceProperties.
Import GenerateTraces.

Lemma sum_shift (a : Z) (l : list Z) :
  foldl Z.add a l = (a + Py.sum l)%Z.
Proof.
  unfold Py.sum. revert a.
  induction l as [|x l IH]; intros a; simpl; [lia|].
  rewrite (IH (a + x)%Z), (IH (0 + x)%Z). lia.
Qed.

Lemma total_frequency_nil : total_frequency [] = 0%Z.
Proof. reflexivity. Qed.

Lemma total_frequency_cons p ps :
  total_frequency (p :: ps) = (freq_of p + total_frequency ps)%Z.
Proof.
  unfold total_frequency, Py.sum. rewrite fmap_cons. simpl.
  rewrite sum_shift. reflexivity.
Qed.

Lemma total_frequency_app ps qs :
  total_frequency (ps ++ qs)
  = (total_frequency ps + total_frequency qs)%Z.
Proof.
  induction ps as [|p ps IH]; simpl.
  - rewrite total_frequency_nil. lia.
  - rewrite !total_frequency_cons, IH. lia.
Qed.

Lemma le_true x y : Py.le x y = true ↔ (x ≤ y)%Qc.
Proof. unfold Py.le. apply bool_decide_eq_true. Qed.

Lemma le_false x y : Py.le x y = false ↔ (y < x)%Qc.
Proof.
  unfold Py.le. rewrite bool_decide_eq_false. symmetry. apply Qclt_nge.
Qed.

(** On a non-empty list the loop always binds its variables, to a pattern
    of the list, whatever they were bound to before. *)
Lemma select_loop_cons u c b p ps :
  ∃ q, select_loop u c b (p :: ps) = Some q ∧ q ∈ p :: ps.
Proof.
  revert c b p. induction ps as [|p' ps IH]; intros c b p.
  - simpl. destruct (Py.le _ _); exists p; split; auto; apply list_elem_of_here.
  - cbn [select_loop]. destruct (Py.le u _) eqn:E.
    + exists p. split; [done | apply list_elem_of_here].
    + destruct (IH (c + freq_of p)%Z (Some p) p') as (q & Hq & Hin).
      exists q. split; [exact Hq | by apply list_elem_of_further].
Qed.

Lemma select_loop_bound_irrel u c b b' ps :
  ps ≠ [] → select_loop u c b ps = select_loop u c b' ps.
Proof.
  destruct ps as [|p ps]; [done | intros _]. simpl.
  by destruct (Py.le _ _).
Qed.

(** The loop started with running sum [c] stops at the first pattern at
    which the running sum reaches [u]. *)
Lemma select_loop_first u c b pre p post :
  (∀ k, (0 < k ≤ length pre)%nat →
        (Py.of_int (c + total_frequency (take k pre)) < u)%Qc) →
  (u ≤ Py.of_int (c + total_frequency (pre ++ [p])))%Qc →
  select_loop u c b (pre ++ p :: post) = Some p.
Proof.
  revert c b. induction pre as [|x pre IH]; intros c b Hlt Hle.
  - simpl in *. rewrite total_frequency_cons, total_frequency_nil in Hle.
    replace (c + (freq_of p + 0))%Z with (c + freq_of p)%Z in Hle by lia.
    apply le_true in Hle. by rewrite Hle.
  - cbn [app select_loop].
    assert (Hx : Py.le u (Py.of_int (c + freq_of x)) = false).
    { apply le_false. specialize (Hlt 1%nat). simpl in Hlt.
      rewrite take_0, total_frequency_cons, total_frequency_nil in Hlt.
      replace (c + (freq_of x + 0))%Z with (c + freq_of x)%Z in Hlt by lia.
      apply Hlt. lia. }
    rewrite Hx. apply IH.
    + intros k Hk. specialize (Hlt (S k)). simpl in Hlt.
      rewrite total_frequency_cons in Hlt.
      replace (c + freq_of x + total_frequency (take k pre))%Z
        with (c + (freq_of x + total_frequency (take k pre)))%Z by lia.
      apply Hlt. lia.
    + simpl in Hle. rewrite total_frequency_cons in Hle.
      replace (c + freq_of x + total_frequency (pre ++ [p]))%Z
        with (c + (freq_of x + total_frequency (pre ++ [p])))%Z by lia.
      exact Hle.
Qed.

(** When no running sum reaches [u], the loop runs to its end and leaves the
    variables bound to the last pattern. *)
Lemma select_loop_exhausted u c b ps :
  (∀ k, (0 < k ≤ length ps)%nat →
        (Py.of_int (c + total_frequency (take k ps)) < u)%Qc) →
  select_loop u c b ps = from_option Some b (last ps).
Proof.
  revert c b. induction ps as [|x ps IH]; intros c b Hlt; [done|].
  cbn [select_loop].
  assert (Hx : Py.le u (Py.of_int (c + freq_of x)) = false).
  { apply le_false. specialize (Hlt 1%nat). simpl in Hlt.
    rewrite take_0, total_frequency_cons, total_frequency_nil in Hlt.
    replace (c + (freq_of x + 0))%Z with (c + freq_of x)%Z in Hlt by lia.
    apply Hlt. lia. }
  rewrite Hx, IH.
  - rewrite last_cons. by destruct (last ps).
  - intros k Hk. specialize (Hlt (S k)). simpl in Hlt.
    rewrite total_frequency_cons in Hlt.
    replace (c + freq_of x + total_frequency (take k ps))%Z
      with (c + (freq_of x + total_frequency (take k ps)))%Z by lia.
    apply Hlt. lia.
Qed.

(** If some running sum reaches [u], there is a first pattern at which it
    does. *)
Lemma first_reaching_exists u c ps :
  (∃ k, (0 < k ≤ length ps)%nat ∧
        (u ≤ Py.of_int (c + total_frequency (take k ps)))%Qc) →
  ∃ pre p post,
    ps = pre ++ p :: post ∧
    (∀ k, (0 < k ≤ length pre)%nat →
          (Py.of_int (c + total_frequency (take k pre)) < u)%Qc) ∧
    (u ≤ Py.of_int (c + total_frequency (pre ++ [p])))%Qc.
Proof.
  revert c. induction ps as [|x ps IH]; intros c (k & Hk & Hu).
  { simpl in Hk. lia. }
  destruct (decide (u ≤ Py.of_int (c + freq_of x))%Qc) as [Hx|Hx].
  - exists [], x, ps. split; [done|]. split.
    + intros j Hj. simpl in Hj. lia.
    + simpl. rewrite total_frequency_cons, total_frequency_nil.
      by replace (c + (freq_of x + 0))%Z with (c + freq_of x)%Z by lia.
  - apply Qclt_nge in Hx.
    destruct k as [|k]; [lia|]. simpl in Hu.
    rewrite total_frequency_cons in Hu.
    destruct k as [|k].
    { rewrite take_0, total_frequency_nil in Hu.
      replace (c + (freq_of x + 0))%Z with (c + freq_of x)%Z in Hu by lia.
      apply Qcle_ngt in Hu. done. }
    destruct (IH (c + freq_of x)%Z) as (pre & p & post & -> & Hlt & Hle).
    { exists (S k). split; [simpl in Hk; lia|].
      by replace (c + freq_of x + total_frequency (take (S k) ps))%Z
        with (c + (freq_of x + total_frequency (take (S k) ps)))%Z by lia. }
    exists (x :: pre), p, post. split; [done|]. split.
    + intros j Hj. destruct j as [|j]; [lia|]. simpl.
      rewrite total_frequency_cons.
      destruct j as [|j].
      * rewrite take_0, total_frequency_nil.
        by replace (c + (freq_of x + 0))%Z with (c + freq_of x)%Z by lia.
      * replace (c + (freq_of x + total_frequency (take (S j) pre)))%Z
          with (c + freq_of x + total_frequency (take (S j) pre))%Z by lia.
        apply Hlt. simpl in Hj. lia.
    + simpl. rewrite total_frequency_cons.
      by replace (c + (freq_of x + total_frequency (pre ++ [p])))%Z
        with (c + freq_of x + total_frequency (pre ++ [p]))%Z by lia.
Qed.

(** With weights that are not negative the running sum never decreases. *)
Lemma total_frequency_take_le ps k :
  Forall (λ p, (0 ≤ freq_of p)%Z) ps →
  (total_frequency (take k ps) ≤ total_frequency ps)%Z.
Proof.
  intros Hpos. revert k.
  induction Hpos as [|x ps Hx _ IH]; intros k.
  - by rewrite take_nil.
  - destruct k as [|k]; simpl.
    + rewrite total_frequency_nil, total_frequency_cons.
      specialize (IH 0%nat). rewrite take_0, total_frequency_nil in IH. lia.
    + rewrite !total_frequency_cons. specialize (IH k). lia.
Qed.

(** C2. On a non-empty pattern list the weighted selection returns the
    first pattern, in declared order, whose accumulated weight is at least
    the draw [u]; such a pattern exists for every draw up to the total
    weight; and a draw beyond the last cumulative boundary (every weight
    being a non-negative integer) selects the last pattern instead of
    failing. *)
Theorem select_pattern_first_reaching_or_last
    (call_patterns : list CallPattern) (u : Qc) :
  call_patterns ≠ [] →
  (∀ p, first_reaching call_patterns u p →
        select_pattern call_patterns u = Some p) ∧
  ((0 ≤ u ≤ Py.of_int (total_frequency call_patterns))%Qc →
   ∃ p, first_reaching call_patterns u p ∧
        select_pattern call_patterns u = Some p) ∧
  (Forall (λ p, (0 ≤ freq_of p)%Z) call_patterns →
   (Py.of_int (total_frequency call_patterns) < u)%Qc →
   is_Some (last call_patterns) ∧
   select_pattern call_patterns u = last call_patterns).
Proof.
  intros Hne.
  assert (Hfirst : ∀ p, first_reaching call_patterns u p →
                        select_pattern call_patterns u = Some p).
  { intros p (pre & post & -> & Hlt & Hle).
    unfold select_pattern. apply select_loop_first.
    - intros k Hk. rewrite Z.add_0_l. by apply Hlt.
    - by rewrite Z.add_0_l. }
  split; [exact Hfirst|]. split.
  - intros [_ Hu].
    destruct (first_reaching_exists u 0 call_patterns)
      as (pre & p & post & Heq & Hlt & Hle).
    { exists (length call_patterns). split.
      - destruct call_patterns; [done | simpl; lia].
      - by rewrite firstn_all, Z.add_0_l. }
    assert (Hp : first_reaching call_patterns u p).
    { exists pre, post. split; [done|]. split.
      - intros k Hk. specialize (Hlt k Hk). by rewrite Z.add_0_l in Hlt.
      - by rewrite Z.add_0_l in Hle. }
    exists p. split; [exact Hp | by apply Hfirst].
  - intros Hpos Hu. split; [by apply last_is_Some|].
    unfold select_pattern. rewrite select_loop_exhausted.
    + by destruct (last call_patterns).
    + intros k _. rewrite Z.add_0_l.
      eapply Qcle_lt_trans; [|exact Hu].
      unfold Py.of_int. rewrite <- Z2Qc_inj_le.
      by apply total_frequency_take_le.
Qed.

Lemma float_limit_pos : (0 < Py.float_limit)%Z.
Proof. by vm_compute. Qed.

Lemma float_of_int_fits n :
  (Z.abs n < Py.float_limit)%Z →
  Py.float_of_int n = inr (Py.round64 (Qc_of_Z n)).
Proof. intros H. unfold Py.float_of_int. by rewrite bool_decide_false by lia. Qed.

Lemma float_of_int_overflow n :
  (Py.float_limit ≤ Z.abs n)%Z → Py.float_of_int n = inl Py.OverflowError.
Proof. intros H. unfold Py.float_of_int. by rewrite bool_decide_true. Qed.

(** [random.uniform(0, total)] returns when the total converts to a float,
    and raises [OverflowError] when it does not. *)
Lemma uniform_fits rnd k total :
  (Z.abs total < Py.float_limit)%Z →
  uniform rnd k 0 total
  = inr (Py.fadd (Py.round64 (Qc_of_Z 0))
                 (Py.fmul (Py.round64 (Qc_of_Z total)) (rnd k))).
Proof.
  intros H. unfold uniform. rewrite Z.sub_0_r.
  rewrite (float_of_int_fits total H). cbn [Py.bind].
  rewrite (float_of_int_fits 0); [done|].
  pose proof float_limit_pos. simpl. lia.
Qed.

Lemma uniform_overflow rnd k total :
  (Py.float_limit ≤ Z.abs total)%Z →
  uniform rnd k 0 total = inl Py.OverflowError.
Proof.
  intros H. unfold uniform. rewrite Z.sub_0_r.
  by rewrite (float_of_int_overflow total H).
Qed.

Lemma trace_step_nonempty rnd ps total st :
  (Z.abs total < Py.float_limit)%Z →
  ps ≠ [] →
  ∃ p, p ∈ ps ∧
       trace_step rnd ps total st
       = inr {| traces := traces st ++ [trace_of (trace_id st) p];
                trace_id := trace_id st + 1;
                draws := S (draws st);
                loop_vars := Some p |}.
Proof.
  intros Hfits Hne. destruct ps as [|p0 ps]; [done|].
  unfold trace_step. rewrite (uniform_fits rnd (draws st) total Hfits).
  cbn [Py.bind].
  destruct (select_loop_cons
              (Py.fadd (Py.round64 (Qc_of_Z 0))
                 (Py.fmul (Py.round64 (Qc_of_Z total)) (rnd (draws st))))
              0 (loop_vars st) p0 ps) as (q & Hq & Hin).
  rewrite Hq. by exists q.
Qed.

Lemma trace_loop_nonempty rnd ps total n :
  (Z.abs total < Py.float_limit)%Z →
  ps ≠ [] →
  ∀ st, ∃ st' new,
    trace_loop rnd ps total n st = inr st' ∧
    traces st' = traces st ++ new ∧
    length new = n ∧
    numbered_from ps (trace_id st) new.
Proof.
  intros Hfits Hne. induction n as [|n IH]; intros st.
  - exists st, []. simpl. repeat split.
    + by rewrite app_nil_r.
    + intros i t Hi. by rewrite lookup_nil in Hi.
  - destruct (trace_step_nonempty rnd ps total st Hfits Hne)
      as (p & Hp & Hstep).
    cbn [trace_loop]. rewrite Hstep. cbn [Py.bind].
    destruct (IH {| traces := traces st ++ [trace_of (trace_id st) p];
                    trace_id := trace_id st + 1;
                    draws := S (draws st);
                    loop_vars := Some p |})
      as (st' & new & Hloop & Htr & Hlen & Hnum).
    exists st', (trace_of (trace_id st) p :: new).
    split; [exact Hloop|]. split.
    { rewrite Htr. cbn [traces]. by rewrite <- app_assoc. }
    split; [simpl; by rewrite Hlen|].
    intros i t Hi. destruct i as [|i].
    + simpl in Hi. injection Hi as <-. exists p. split; [done|].
      by rewrite Z.add_0_r.
    + simpl in Hi. destruct (Hnum i t Hi) as (q & Hq & ->).
      exists q. split; [done|]. cbn [trace_id]. f_equal. lia.
Qed.

(** With no pattern the loop variables are never bound: the first iteration
    stops on the unbound [caller]. *)
Lemma trace_loop_empty rnd total n st :
  (Z.abs total < Py.float_limit)%Z →
  loop_vars st = None →
  trace_loop rnd [] total n st
  = match n with
    | O => inr st
    | S _ => inl (Py.UnboundLocalError "caller")
    end.
Proof.
  intros Hfits Hvars. destruct n as [|n]; [done|].
  cbn [trace_loop]. unfold trace_step.
  rewrite (uniform_fits rnd (draws st) total Hfits).
  cbn [Py.bind select_loop]. by rewrite Hvars.
Qed.

(** When the total does not convert, the first iteration stops on the
    conversion. *)
Lemma trace_loop_overflow rnd ps total n st :
  (Py.float_limit ≤ Z.abs total)%Z →
  trace_loop rnd ps total n st
  = match n with
    | O => inr st
    | S _ => inl Py.OverflowError
    end.
Proof.
  intros Hover. destruct n as [|n]; [done|].
  cbn [trace_loop]. unfold trace_step.
  by rewrite (uniform_overflow rnd (draws st) total Hover).
Qed.

Lemma generate_overflow rnd services ps (num_traces : Z) :
  ¬ total_fits ps →
  generate_microservice_traces rnd services ps num_traces
  = if bool_decide (0 < num_traces)%Z then inl Py.OverflowError else inr [].
Proof.
  intros Hover. unfold total_fits in Hover.
  unfold generate_microservice_traces.
  rewrite trace_loop_overflow by lia.
  case_bool_decide as H.
  - destruct (Z.to_nat num_traces) eqn:E; [lia | done].
  - replace (Z.to_nat num_traces) with 0%nat by lia. done.
Qed.

Lemma generate_nonempty rnd services ps (num_traces : Z) :
  total_fits ps →
  ps ≠ [] →
  ∃ ts, generate_microservice_traces rnd services ps num_traces = inr ts ∧
        length ts = Z.to_nat num_traces ∧
        numbered_from ps 1 ts.
Proof.
  intros Hfits Hne. unfold generate_microservice_traces.
  destruct (trace_loop_nonempty rnd ps (total_frequency ps)
              (Z.to_nat num_traces) Hfits Hne
              {| traces := []; trace_id := 1; draws := 0;
                 loop_vars := None |})
    as (st' & new & Hloop & Htr & Hlen & Hnum).
  rewrite Hloop. cbn [Py.bind Py.ret]. exists (traces st').
  simpl in Htr. rewrite Htr. by repeat split.
Qed.

Lemma generate_empty rnd services (num_traces : Z) :
  generate_microservice_traces rnd services [] num_traces
  = if bool_decide (0 < num_traces)%Z
    then inl (Py.UnboundLocalError "caller")
    else inr [].
Proof.
  unfold generate_microservice_traces.
  rewrite trace_loop_empty; [|by vm_compute | done].
  case_bool_decide as H.
  - destruct (Z.to_nat num_traces) eqn:E; [lia | done].
  - replace (Z.to_nat num_traces) with 0%nat by lia. done.
Qed.

(** C1 (as amended). For a template with at least one call pattern, whose
    total weight converts to a float (its magnitude is below
    [2^1024 - 2^970]), and a requested count [N >= 0], the synthesizer
    returns a list of exactly [N] records, and the local/remote endpoint of
    every record is the caller/callee of a pattern of the template. *)
Theorem generate_returns_N_records rnd (services : list string)
    (call_patterns : list CallPattern) (N : Z) :
  call_patterns ≠ [] →
  (Z.abs (total_frequency call_patterns) < 2 ^ 1024 - 2 ^ 970)%Z →
  (0 ≤ N)%Z →
  ∃ ts,
    generate_microservice_traces rnd services call_patterns N = inr ts ∧
    Z.of_nat (length ts) = N ∧
    Forall (λ t, ∃ p, p ∈ call_patterns ∧
                      localEndpoint t = caller_of p ∧
                      remoteEndpoint t = callee_of p) ts.
Proof.
  intros Hne Hfits HN.
  destruct (generate_nonempty rnd services call_patterns N Hfits Hne)
    as (ts & Hgen & Hlen & Hnum).
  exists ts. split; [exact Hgen|]. split; [lia|].
  apply Forall_lookup. intros i t Hi.
  destruct (Hnum i t Hi) as (p & Hp & ->). by exists p.
Qed.

(** C4 (as amended). With an empty call-pattern list no [ConfigError] is
    raised: a request for no trace ([N <= 0]) returns the empty list, and a
    request for at least one trace stops on the unbound loop variable
    [caller]. *)
Theorem generate_without_patterns rnd (services : list string) (N : Z) :
  generate_microservice_traces rnd services [] N
  = if bool_decide (0 < N)%Z
    then inl (Py.UnboundLocalError "caller")
    else inr [].
Proof. apply generate_empty. Qed.

(** C10. The [services] argument has no influence on the result; and in any
    returned list the record at position [i] has [traceId] and [id] equal
    to the decimal string of [i + 1], with the endpoints of one of the call
    patterns. *)
Theorem generate_ignores_services rnd (S1 S2 : list string)
    (call_patterns : list CallPattern) (N : Z) :
  generate_microservice_traces rnd S1 call_patterns N
  = generate_microservice_traces rnd S2 call_patterns N ∧
  ∀ ts, generate_microservice_traces rnd S1 call_patterns N = inr ts →
    ∀ (i : nat) t, ts !! i = Some t →
      traceId t = Py.str (Z.of_nat i + 1) ∧
      id t = Py.str (Z.of_nat i + 1) ∧
      ∃ p, p ∈ call_patterns ∧
           localEndpoint t = caller_of p ∧
           remoteEndpoint t = callee_of p.
Proof.
  split; [reflexivity|].
  intros ts Hgen i t Hi.
  destruct call_patterns as [|p0 ps].
  - rewrite generate_empty in Hgen. case_bool_decide; [done|].
    injection Hgen as <-. by rewrite lookup_nil in Hi.
  - destruct (decide (total_fits (p0 :: ps))) as [Hfits|Hover].
    2:{ rewrite (generate_overflow _ _ _ _ Hover) in Hgen.
        case_bool_decide; [done|].
        injection Hgen as <-. by rewrite lookup_nil in Hi. }
    destruct (generate_nonempty rnd S1 (p0 :: ps) N Hfits)
      as (ts' & Hgen' & _ & Hnum); [done|].
    rewrite Hgen in Hgen'. injection Hgen' as <-.
    destruct (Hnum i t Hi) as (p & Hp & ->).
    replace (1 + Z.of_nat i)%Z with (Z.of_nat i + 1)%Z by lia.
    repeat split; try done. by exists p.
Qed.

Lemma select_pattern_first_reaching_or_last_witness :
  simple_chain.2 ≠ [] ∧
  ((0 ≤ Py.of_int 12 ≤ Py.of_int (total_frequency simple_chain.2))%Qc ∧
   ∃ p, first_reaching simple_chain.2 (Py.of_int 12) p ∧
        select_pattern simple_chain.2 (Py.of_int 12) = Some p) ∧
  (Forall (λ p, (0 ≤ freq_of p)%Z) simple_chain.2 ∧
   (Py.of_int (total_frequency simple_chain.2) < Py.of_int 25)%Qc ∧
   select_pattern simple_chain.2 (Py.of_int 25) = last simple_chain.2).
Proof.
  assert (Hne : simple_chain.2 ≠ []) by discriminate.
  assert (Hin : (0 ≤ Py.of_int 12
                 ≤ Py.of_int (total_frequency simple_chain.2))%Qc).
  { split; vm_compute; discriminate. }
  assert (Hpos : Forall (λ p, (0 ≤ freq_of p)%Z) simple_chain.2).
  { repeat constructor; vm_compute; discriminate. }
  assert (Hout : (Py.of_int (total_frequency simple_chain.2)
                  < Py.of_int 25)%Qc).
  { vm_compute. reflexivity. }
  split; [exact Hne|]. split; [split; [exact Hin|] | split; [exact Hpos|]].
  - exact (proj1 (proj2 (select_pattern_first_reaching_or_last
                           simple_chain.2 (Py.of_int 12) Hne)) Hin).
  - split; [exact Hout|].
    exact (proj2 (proj2 (proj2 (select_pattern_first_reaching_or_last
                                  simple_chain.2 (Py.of_int 25) Hne))
                    Hpos Hout)).
Defined.

Lemma generate_returns_N_records_witness :
  simple_chain.2 ≠ [] ∧
  (Z.abs (total_frequency simple_chain.2) < 2 ^ 1024 - 2 ^ 970)%Z ∧
  (0 ≤ 3)%Z ∧
  ∃ ts,
    generate_microservice_traces (λ _, 0%Qc) simple_chain.1 simple_chain.2 3
    = inr ts ∧
    Z.of_nat (length ts) = 3%Z ∧
    Forall (λ t, ∃ p, p ∈ simple_chain.2 ∧
                      localEndpoint t = caller_of p ∧
                      remoteEndpoint t = callee_of p) ts.
Proof.
  assert (Hne : simple_chain.2 ≠ []) by discriminate.
  assert (Hfits : (Z.abs (total_frequency simple_chain.2)
                   < 2 ^ 1024 - 2 ^ 970)%Z) by (vm_compute; reflexivity).
  assert (HN : (0 ≤ 3)%Z) by lia.
  split; [exact Hne|]. split; [exact Hfits|]. split; [exact HN|].
  exact (generate_returns_N_records (λ _, 0%Qc) simple_chain.1
           simple_chain.2 3 Hne Hfits HN).
Defined.

(** One pattern of weight [2^1024] and one requested trace: the call raises
    [OverflowError] and returns no list. *)
Lemma generate_overflows_on_huge_weight :
  ¬ ∃ ts, generate_microservice_traces (λ _, 0%Qc) ["a"; "b"]
            [("a", "b", (2 ^ 1024)%Z)] 1 = inr ts.
Proof. intros [ts H]. vm_compute in H. discriminate. Qed.

(** With no call pattern and no trace requested the call returns the empty
    list: it does not fail. *)
Lemma generate_without_patterns_returns :
  ¬ ∃ e, generate_microservice_traces (λ _, 0%Qc) ["frontend"] [] 0
         = inl e.
Proof. intros [e He]. vm_compute in He. discriminate. Qed.

Lemma generate_ignores_services_witness :
  let t1 := mkTrace "1" "1" "frontend" "api-gateway" in
  let t2 := mkTrace "2" "2" "frontend" "api-gateway" in
  generate_microservice_traces (λ _, 0%Qc) simple_chain.1 simple_chain.2 2
  = inr [t1; t2] ∧
  [t1; t2] !! 1%nat = Some t2 ∧
  generate_microservice_traces (λ _, 0%Qc) simple_chain.1 simple_chain.2 2
  = generate_microservice_traces (λ _, 0%Qc) [] simple_chain.2 2 ∧
  traceId t2 = Py.str (Z.of_nat 1 + 1) ∧
  id t2 = Py.str (Z.of_nat 1 + 1) ∧
  ∃ p, p ∈ simple_chain.2 ∧
       localEndpoint t2 = caller_of p ∧ remoteEndpoint t2 = callee_of p.
Proof.
  intros t1 t2.
  assert (Hgen : generate_microservice_traces (λ _, 0%Qc) simple_chain.1
                   simple_chain.2 2 = inr [t1; t2]).
  { vm_compute. reflexivity. }
  assert (Hi : [t1; t2] !! 1%nat = Some t2) by reflexivity.
  split; [exact Hgen|]. split; [exact Hi|].
  split.
  - exact (proj1 (generate_ignores_services (λ _, 0%Qc) simple_chain.1 []
                    simple_chain.2 2)).
  - exact (proj2 (generate_ignores_services (λ _, 0%Qc) simple_chain.1 []
                    simple_chain.2 2) [t1; t2] Hgen 1%nat t2 Hi).
Defined.

End TraceProperties.

(** ** Properties of the expected-DCI report *)

Module DciProperties.
Import GenerateTraces.

Lemma init_service_calls_fold (m : gmap string (gset string)) services S :
  foldl (λ m service, <[service := ∅]> m) m services !! S
  = if decide (S ∈ services) then Some ∅ else m !! S.
Proof.
  revert m. induction services as [|x services IH]; intros m; simpl.
  - destruct (decide (S ∈ [])) as [H|H]; [by apply elem_of_nil in H | done].
  - rewrite IH. destruct (decide (S ∈ services)) as [Hin|Hin].
    + rewrite decide_True; [done | by apply list_elem_of_further].
    + destruct (decide (x = S)) as [->|Hne].
      * rewrite lookup_insert_eq.
        rewrite decide_True; [done | apply list_elem_of_here].
      * rewrite lookup_insert_ne by done.
        rewrite decide_False; [done|].
        intros [?|?]%elem_of_cons; congruence.
Qed.

Lemma init_service_calls_lookup services S :
  init_service_calls services !! S
  = if decide (S ∈ services) then Some ∅ else None.
Proof.
  unfold init_service_calls. rewrite init_service_calls_fold.
  by rewrite lookup_empty.
Qed.

Lemma callees_set_cons p calls S :
  callees_set (p :: calls) S
  = if decide (caller_of p = S)
    then {[callee_of p]} ∪ callees_set calls S
    else callees_set calls S.
Proof.
  unfold callees_set. rewrite filter_cons.
  destruct (decide (caller_of p = S)); [|done].
  by rewrite fmap_cons, list_to_set_cons.
Qed.

(** When every caller is a key, all calls are added and each key ends with
    its former callees plus those the calls give it. *)
Lemma add_calls_ok calls :
  ∀ m : gmap string (gset string),
    Forall (λ p, is_Some (m !! caller_of p)) calls →
    ∃ m' : gmap string (gset string),
      add_calls calls m = inr m' ∧
      ∀ S, m' !! S = (λ st, st ∪ callees_set calls S) <$> (m !! S).
Proof.
  induction calls as [|p calls IH]; intros m Hkeys.
  - exists m. split; [done|]. intros S. unfold callees_set. simpl.
    destruct (m !! S) as [st|]; simpl; [|done].
    f_equal. set_solver.
  - apply Forall_cons in Hkeys as [[st Hst] Hkeys].
    cbn [add_calls]. rewrite Hst.
    destruct (IH (<[caller_of p := st ∪ {[callee_of p]}]> m))
      as (m' & Hadd & Hlook).
    { eapply Forall_impl; [exact Hkeys|]. intros q Hq. simpl.
      rewrite lookup_insert_is_Some. destruct (decide (caller_of p = caller_of q)); auto. }
    exists m'. split; [exact Hadd|]. intros S.
    rewrite Hlook, callees_set_cons.
    destruct (decide (caller_of p = S)) as [<-|Hne].
    + rewrite lookup_insert_eq, Hst. simpl. f_equal. set_solver.
    + by rewrite lookup_insert_ne.
Qed.

(** The first caller that is no key stops the loop with [KeyError]. *)
Lemma add_calls_key_error calls :
  ∀ m : gmap string (gset string),
    ¬ Forall (λ p, is_Some (m !! caller_of p)) calls →
    ∃ k, add_calls calls m = inl (Py.KeyError k).
Proof.
  induction calls as [|p calls IH]; intros m Hkeys.
  - destruct Hkeys. constructor.
  - cbn [add_calls]. destruct (m !! caller_of p) as [st|] eqn:Hst.
    + apply IH. intros Hall. apply Hkeys. constructor; [by rewrite Hst|].
      eapply Forall_impl; [exact Hall|]. intros q Hq. simpl in Hq.
      rewrite lookup_insert_is_Some in Hq.
      destruct Hq as [<-|[_ Hq]]; [by rewrite Hst | done].
    + by exists (caller_of p).
Qed.

Lemma size_callees_set calls S :
  size (callees_set calls S) = distinctCallees calls S.
Proof.
  unfold callees_set, distinctCallees.
  rewrite <- (size_list_to_set (C:=gset string) (remove_dups _))
    by apply NoDup_remove_dups.
  f_equal. apply set_eq. intros x.
  by rewrite !elem_of_list_to_set, elem_of_remove_dups.
Qed.

Lemma report_lines_ok (m : gmap string (gset string)) services calls l :
  (∀ S, S ∈ l → m !! S = Some (callees_set calls S)) →
  report_lines m (Z.of_nat (length services) - 1) l
  = inr (line_for services calls <$> l).
Proof.
  induction l as [|S l IH]; intros Hm; [done|].
  cbn [report_lines]. rewrite (Hm S) by apply list_elem_of_here.
  rewrite IH.
  - cbn [Py.bind Py.ret]. rewrite fmap_cons. unfold line_for.
    by rewrite size_callees_set.
  - intros S' HS'. apply Hm. by apply list_elem_of_further.
Qed.

(** Closed form of the whole report for a template whose callers are all
    listed services. *)
Lemma expected_dci_closed_form services calls :
  Forall (λ p, caller_of p ∈ services) calls →
  expected_dci services calls = inr (line_for services calls <$> services).
Proof.
  intros Hcallers. unfold expected_dci.
  destruct (add_calls_ok calls (init_service_calls services))
    as (m' & Hadd & Hlook).
  { eapply Forall_impl; [exact Hcallers|]. intros p Hp. simpl.
    rewrite init_service_calls_lookup, decide_True by done. eauto. }
  rewrite Hadd. cbn [Py.bind]. apply report_lines_ok.
  intros S HS. rewrite Hlook, init_service_calls_lookup, decide_True by done.
  simpl. f_equal. set_solver.
Qed.

Lemma expected_dci_key_error services calls :
  ¬ Forall (λ p, caller_of p ∈ services) calls →
  ∃ k, expected_dci services calls = inl (Py.KeyError k).
Proof.
  intros Hcallers. unfold expected_dci.
  destruct (add_calls_key_error calls (init_service_calls services))
    as (k & Hk).
  - intros Hall. apply Hcallers.
    eapply Forall_impl; [exact Hall|]. intros p Hp. simpl in Hp.
    rewrite init_service_calls_lookup in Hp.
    destruct (decide (caller_of p ∈ services)); [done|].
    by destruct Hp.
  - exists k. by rewrite Hk.
Qed.

Lemma elem_of_callees_set calls S x :
  x ∈ callees_set calls S ↔ has_edge calls S x.
Proof.
  unfold callees_set, has_edge.
  rewrite elem_of_list_to_set, list_elem_of_fmap. split.
  - intros (p & -> & Hp). apply list_elem_of_filter in Hp as [Hc Hp].
    by exists p.
  - intros (p & Hp & Hc & Hx). exists p. split; [done|].
    by apply list_elem_of_filter.
Qed.

Lemma same_edges_callees_set calls calls' S :
  same_edges calls calls' → callees_set calls S = callees_set calls' S.
Proof.
  intros Hsame. apply set_eq. intros x.
  rewrite !elem_of_callees_set. apply Hsame.
Qed.

Lemma same_edges_line_for services calls calls' S :
  same_edges calls calls' →
  line_for services calls S = line_for services calls' S.
Proof.
  intros Hsame. unfold line_for.
  by rewrite <- !size_callees_set, (same_edges_callees_set calls calls' S).
Qed.

Lemma same_edges_callers (services : list string) calls calls' :
  same_edges calls calls' →
  Forall (λ p, caller_of p ∈ services) calls →
  Forall (λ p, caller_of p ∈ services) calls'.
Proof.
  intros Hsame Hall. apply Forall_forall. intros p' Hp'.
  destruct (proj2 (Hsame (caller_of p') (callee_of p')))
    as (p & Hp & Hc & _); [by exists p'|].
  rewrite <- Hc. by apply (proj1 (Forall_forall _ _) Hall).
Qed.

Lemma same_edges_sym calls calls' :
  same_edges calls calls' → same_edges calls' calls.
Proof. intros H a b. symmetry. apply H. Qed.

(** The report depends on the call list through its set of edges only. *)
Lemma same_edges_expected_dci services calls calls' :
  same_edges calls calls' →
  Py.value (expected_dci services calls')
  = Py.value (expected_dci services calls).
Proof.
  intros Hsame.
  destruct (decide (Forall (λ p, caller_of p ∈ services) calls))
    as [Hall|Hall].
  - rewrite !expected_dci_closed_form
      by eauto using same_edges_callers.
    simpl. f_equal. apply list_fmap_ext. intros _ S _.
    symmetry. by apply same_edges_line_for.
  - destruct (expected_dci_key_error services calls Hall) as (k & ->).
    destruct (expected_dci_key_error services calls') as (k' & ->);
      [|done].
    intros Hall'. apply Hall.
    eauto using same_edges_callers, same_edges_sym.
Qed.

Lemma Permutation_same_edges calls calls' :
  calls ≡ₚ calls' → same_edges calls calls'.
Proof.
  intros Hperm a b. unfold has_edge.
  split; intros (p & Hp & H); exists p; split; try done.
  - by rewrite <- Hperm.
  - by rewrite Hperm.
Qed.

Lemma duplicate_same_edges pre post e :
  has_edge (pre ++ post) (caller_of e) (callee_of e) →
  same_edges (pre ++ post) (pre ++ e :: post).
Proof.
  intros (e0 & He0 & Hc & Hd) a b. unfold has_edge. split.
  - intros (p & Hp & H). exists p. split; [|done].
    apply elem_of_app in Hp as [Hp|Hp]; apply elem_of_app; auto.
    right. by apply list_elem_of_further.
  - intros (p & Hp & Ha & Hb).
    apply elem_of_app in Hp as [Hp|Hp].
    + exists p. split; [apply elem_of_app; auto | done].
    + apply elem_of_cons in Hp as [->|Hp].
      * exists e0. split; [done|]. by rewrite Hc, Hd.
      * exists p. split; [apply elem_of_app; auto | done].
Qed.

Lemma coupling_status_cases (dci : Qc) :
  ((Q2Qc (7 # 10) ≤ dci)%Qc → coupling_status dci = "High") ∧
  ((Q2Qc (4 # 10) ≤ dci < Q2Qc (7 # 10))%Qc →
   coupling_status dci = "Moderate") ∧
  ((0 < dci < Q2Qc (4 # 10))%Qc → coupling_status dci = "Low") ∧
  (dci = 0%Qc → coupling_status dci = "No").
Proof.
  unfold coupling_status, Py.ge, Py.gt, Py.le, Py.lt.
  repeat split.
  - intros H. by rewrite bool_decide_true.
  - intros [H1 H2]. rewrite bool_decide_false by by apply Qclt_nge.
    by rewrite bool_decide_true.
  - intros [H1 H2].
    rewrite bool_decide_false.
    2:{ apply Qclt_nge. eapply Qclt_trans; [exact H2|]. done. }
    rewrite bool_decide_false by by apply Qclt_nge.
    by rewrite bool_decide_true.
  - intros ->. done.
Qed.

(** C3. For a template whose callers are all listed services, the report
    has one line per service, in order; the score of service [S] is the
    number of distinct callees of [S] divided by [|services| - 1], and 0
    when [|services| - 1 <= 0]; the status is High from 0.7 on, Moderate
    from 0.4 on, Low above 0 and No at 0.  Every template of the catalog is
    such a template.  On [simple_chain] the three calling services score 1/3
    (Low) and [database] scores 0 (No). *)
Theorem expected_dci_distinct_callees_ratio :
  (∀ (services : list string) (calls : list CallPattern),
     Forall (λ p, caller_of p ∈ services) calls →
     ∃ lines,
       expected_dci services calls = inr lines ∧
       line_service <$> lines = services ∧
       ∀ l, l ∈ lines →
         let maxPossible := (Z.of_nat (length services) - 1)%Z in
         let dci := line_dci l in
         dci = (if bool_decide (maxPossible ≤ 0)%Z then 0
                else Py.of_int
                       (Z.of_nat (distinctCallees calls (line_service l)))
                     / Py.of_int maxPossible)%Qc ∧
         ((Q2Qc (7 # 10) ≤ dci)%Qc → line_status l = "High") ∧
         ((Q2Qc (4 # 10) ≤ dci < Q2Qc (7 # 10))%Qc →
          line_status l = "Moderate") ∧
         ((0 < dci < Q2Qc (4 # 10))%Qc → line_status l = "Low") ∧
         (dci = 0%Qc → line_status l = "No")) ∧
  (∀ name pattern,
     patterns_get create_common_patterns name = Some pattern →
     Forall (λ p, caller_of p ∈ pattern.1) pattern.2) ∧
  expected_dci simple_chain.1 simple_chain.2
  = inr [mkDciLine "frontend" 1 3 (Q2Qc (1 # 3)) "Low";
         mkDciLine "api-gateway" 1 3 (Q2Qc (1 # 3)) "Low";
         mkDciLine "user-service" 1 3 (Q2Qc (1 # 3)) "Low";
         mkDciLine "database" 0 3 0%Qc "No"].
Proof.
  split.
  - intros services calls Hcallers.
    exists (line_for services calls <$> services).
    split; [by apply expected_dci_closed_form|]. split.
    { rewrite <- list_fmap_compose. apply list_fmap_id. }
    intros l Hl. apply list_elem_of_fmap in Hl as (S & -> & _).
    cbn zeta. unfold line_for. cbn [line_dci line_status line_service].
    split; [|apply coupling_status_cases].
    unfold dci_of.
    destruct (decide (0 < Z.of_nat (length services) - 1)%Z).
    + by rewrite bool_decide_true, bool_decide_false by lia.
    + by rewrite bool_decide_false, bool_decide_true by lia.
  - split.
    + intros name pattern Hpat.
      by destruct (CatalogProperties.catalog_well_formed name pattern Hpat).
    + apply (bool_decide_unpack _). by vm_compute.
Qed.

(** C9. The expected-DCI lines do not change when the call patterns are
    reordered, nor when an edge that is already present is declared once
    more (at any position, with any weight). *)
Theorem expected_dci_order_and_duplicates_irrelevant
    (services : list string) (calls : list CallPattern) :
  (∀ calls', calls ≡ₚ calls' →
     Py.value (expected_dci services calls')
     = Py.value (expected_dci services calls)) ∧
  (∀ pre post e,
     calls = pre ++ post →
     has_edge calls (caller_of e) (callee_of e) →
     Py.value (expected_dci services (pre ++ e :: post))
     = Py.value (expected_dci services calls)).
Proof.
  split.
  - intros calls' Hperm.
    by apply same_edges_expected_dci, Permutation_same_edges.
  - intros pre post e -> Hedge.
    by apply same_edges_expected_dci, duplicate_same_edges.
Qed.

Lemma expected_dci_distinct_callees_ratio_witness :
  Forall (λ p, caller_of p ∈ ecommerce.1) ecommerce.2 ∧
  ∃ lines,
    expected_dci ecommerce.1 ecommerce.2 = inr lines ∧
    line_service <$> lines = ecommerce.1 ∧
    ∀ l, l ∈ lines →
      let maxPossible := (Z.of_nat (length ecommerce.1) - 1)%Z in
      let dci := line_dci l in
      dci = (if bool_decide (maxPossible ≤ 0)%Z then 0
             else Py.of_int
                    (Z.of_nat (distinctCallees ecommerce.2 (line_service l)))
                  / Py.of_int maxPossible)%Qc ∧
      ((Q2Qc (7 # 10) ≤ dci)%Qc → line_status l = "High") ∧
      ((Q2Qc (4 # 10) ≤ dci < Q2Qc (7 # 10))%Qc →
       line_status l = "Moderate") ∧
      ((0 < dci < Q2Qc (4 # 10))%Qc → line_status l = "Low") ∧
      (dci = 0%Qc → line_status l = "No").
Proof.
  assert (Hcallers : Forall (λ p, caller_of p ∈ ecommerce.1) ecommerce.2).
  { apply (bool_decide_unpack _). vm_compute. exact I. }
  split; [exact Hcallers|].
  exact (proj1 expected_dci_distinct_callees_ratio
           ecommerce.1 ecommerce.2 Hcallers).
Defined.

Lemma expected_dci_order_and_duplicates_irrelevant_witness :
  let dup : CallPattern := ("frontend", "api-gateway", 99%Z) in
  simple_chain.2 ≡ₚ reverse simple_chain.2 ∧
  simple_chain.2 = take 2 simple_chain.2 ++ drop 2 simple_chain.2 ∧
  has_edge simple_chain.2 (caller_of dup) (callee_of dup) ∧
  Py.value (expected_dci simple_chain.1 (reverse simple_chain.2))
  = Py.value (expected_dci simple_chain.1 simple_chain.2) ∧
  Py.value (expected_dci simple_chain.1
              (take 2 simple_chain.2 ++ dup :: drop 2 simple_chain.2))
  = Py.value (expected_dci simple_chain.1 simple_chain.2).
Proof.
  intros dup.
  assert (Hperm : simple_chain.2 ≡ₚ reverse simple_chain.2).
  { symmetry. apply reverse_Permutation. }
  assert (Hsplit : simple_chain.2
                   = take 2 simple_chain.2 ++ drop 2 simple_chain.2)
    by reflexivity.
  assert (Hedge : has_edge simple_chain.2 (caller_of dup) (callee_of dup)).
  { exists ("frontend", "api-gateway", 10%Z).
    split; [apply list_elem_of_here | split; reflexivity]. }
  split; [exact Hperm|]. split; [exact Hsplit|]. split; [exact Hedge|].
  split.
  - exact (proj1 (expected_dci_order_and_duplicates_irrelevant
                    simple_chain.1 simple_chain.2) _ Hperm).
  - exact (proj2 (expected_dci_order_and_duplicates_irrelevant
                    simple_chain.1 simple_chain.2)
             (take 2 simple_chain.2) (drop 2 simple_chain.2) dup
             Hsplit Hedge).
Defined.

End DciProperties.

(** ** Properties of the result analyzer and of the comparator *)

Module ValidateProperties.
Import ValidateRmtDci.

Lemma value_counts_fold (counts : gmap string nat) column v :
  foldl (λ counts cell,
           match cell with
           | Some v => <[v := S (default 0%nat (counts !! v))]> counts
           | None => counts
           end)
        counts column !! v
  = let n := length (filter (λ x, x = Some v) column) in
    if bool_decide (0 < n)%nat
    then Some (default 0%nat (counts !! v) + n)%nat
    else counts !! v.
Proof.
  revert counts. induction column as [|x column IH]; intros counts.
  { done. }
  cbn [foldl]. rewrite IH. cbn zeta. rewrite filter_cons.
  destruct x as [x|].
  - destruct (decide (Some x = Some v)) as [[= ->]|Hne].
    + rewrite lookup_insert_eq. cbn [default length].
      rewrite (bool_decide_true (0 < S _)%nat) by lia.
      unfold id. case_bool_decide; f_equal; lia.
    + rewrite lookup_insert_ne by congruence. done.
  - by rewrite decide_False by done.
Qed.

Lemma value_counts_lookup column v :
  value_counts column !! v
  = let n := length (filter (λ x, x = Some v) column) in
    if bool_decide (0 < n)%nat then Some n else None.
Proof.
  unfold value_counts. rewrite value_counts_fold, lookup_empty. done.
Qed.

Lemma filter_fmap_Status (df : list DciRow) s :
  length (filter (λ x, x = Some s) (Status <$> df))
  = length (filter (λ r, Status r = Some s) df).
Proof.
  induction df as [|r df IH]; [done|].
  rewrite fmap_cons, !filter_cons.
  destruct (decide (Status r = Some s)); simpl; by rewrite IH.
Qed.

Lemma status_counts_only_occurring_aux (df : list DciRow) (s : string) :
  status_counts (analyze_dci_results df) !! s
  = let n := length (filter (λ r, Status r = Some s) df) in
    if bool_decide (0 < n)%nat then Some n else None.
Proof.
  cbn [analyze_dci_results status_counts].
  rewrite value_counts_lookup. cbn zeta.
  by rewrite filter_fmap_Status.
Qed.

(** C5 (as amended). The status distribution has an entry exactly for the
    status values that occur in the rows, each with the number of rows that
    carry it; a status that no row carries has no entry. *)
Theorem status_counts_only_occurring (df : list DciRow) (s : string) :
  status_counts (analyze_dci_results df) !! s
  = let n := length (filter (λ r, Status r = Some s) df) in
    if bool_decide (0 < n)%nat then Some n else None.
Proof. apply status_counts_only_occurring_aux. Qed.

Lemma elem_of_merge dci_df mci_df r :
  r ∈ merge dci_df mci_df ↔
  ∃ d m, d ∈ dci_df ∧ m ∈ mci_df ∧ mci_Service m = Service d ∧
         r = mkMergedRow (Service d) (DCI d) (Status d)
                         (MCI_Afferent m) (MCI_Efferent m).
Proof.
  unfold merge. rewrite list_elem_of_bind. split.
  - intros (d & Hr & Hd). apply list_elem_of_bind in Hr as (m & Hr & Hm).
    apply list_elem_of_filter in Hm as [Hkey Hm].
    apply list_elem_of_singleton in Hr. by exists d, m.
  - intros (d & m & Hd & Hm & Hkey & ->). exists d. split; [|done].
    apply list_elem_of_bind. exists m. split.
    + by apply list_elem_of_singleton.
    + by apply list_elem_of_filter.
Qed.

Lemma elem_of_assign_difference merged c :
  c ∈ assign_difference merged ↔
  c_row c ∈ merged ∧
  Difference c = Qcabs (Py.fsub (m_DCI (c_row c)) (m_MCI_Afferent (c_row c))).
Proof.
  unfold assign_difference. rewrite list_elem_of_fmap. split.
  - by intros (r & -> & Hr).
  - intros [Hr Hd]. exists (c_row c). split; [|done].
    destruct c as [r d]. simpl in *. by rewrite Hd.
Qed.

(** What [compare_with_mci] has checked when it returns a table. *)
Lemma compare_with_mci_Some w dci_df mci_data_file rows :
  compare_with_mci w dci_df mci_data_file = Some rows →
  ∃ f mci_df,
    mci_data_file = Some f ∧ f ≠ EmptyString ∧
    path_exists w f = true ∧ read_mci_csv w f = Some mci_df ∧
    "Service" ∈ dci_columns dci_df ∧ "Service" ∈ mci_columns mci_df ∧
    ("DCI" ∉ mci_columns mci_df) ∧ "MCI_Afferent" ∈ mci_columns mci_df ∧
    merge (dci_rows dci_df) (mci_rows mci_df) ≠ [] ∧
    rows = assign_difference (merge (dci_rows dci_df) (mci_rows mci_df)).
Proof.
  unfold compare_with_mci.
  destruct mci_data_file as [f|]; [|done].
  case_bool_decide as Hf; [|done]. cbn [andb].
  destruct (path_exists w f) eqn:Hex; [|done].
  destruct (read_mci_csv w f) as [mci_df|] eqn:Hread; [|done].
  case_bool_decide as Hs1; [|done]. cbn [andb].
  case_bool_decide as Hs2; [|done].
  case_bool_decide as Hlen; [|done].
  unfold merged_columns_readable.
  case_bool_decide as Hd1; [|done]. cbn [andb].
  case_bool_decide as Hd2; [|done]. cbn [andb].
  case_bool_decide as Ha1; [|done]. cbn [andb].
  case_bool_decide as Ha2; [|done].
  intros [= <-]. exists f, mci_df. repeat split; try done.
  intros E. rewrite E in Hlen. simpl in Hlen. lia.
Qed.




(** A table whose rows are all High has no entry for Moderate, Low or No. *)
Lemma status_counts_omits_absent_status :
  ¬ ∀ s, s ∈ ["High"; "Moderate"; "Low"; "No"] →
         is_Some (status_counts
                    (analyze_dci_results
                       [mkDciRow "svcA" (Q2Qc (8 # 10)) (Some "High");
                        mkDciRow "svcB" (Q2Qc (9 # 10)) (Some "High")]) !! s).
Proof.
  intros H. specialize (H "No").
  rewrite status_counts_only_occurring_aux in H.
  destruct H as [n Hn].
  - do 3 apply list_elem_of_further. apply list_elem_of_here.
  - vm_compute in Hn. discriminate.
Qed.



End ValidateProperties.

(** ** Termination status of the two scripts *)

Module ProcessProperties.
Import GenerateTraces.

Lemma validate_load_failed w argv :
  (2 ≤ length argv)%nat →
  ValidateRmtDci.load_dci_results w (Py.item argv 1) = None →
  ValidateRmtDci.main w argv = inr ValidateRmtDci.LoadFailed.
Proof.
  intros Hlen Hload. unfold ValidateRmtDci.main.
  rewrite bool_decide_false by lia. by rewrite Hload.
Qed.

Lemma validate_main_documented w argv t :
  (2 ≤ length argv)%nat →
  ValidateRmtDci.read_dci_csv w (Py.item argv 1) = Some t →
  ValidateRmtDci.documented t →
  ∃ report, ValidateRmtDci.main w argv = inr report.
Proof.
  intros Hlen Hread (Hservice & Hdci & Hstatus).
  unfold ValidateRmtDci.main. rewrite bool_decide_false by lia.
  unfold ValidateRmtDci.load_dci_results. rewrite Hread.
  rewrite bool_decide_true by done. cbv beta iota.
  unfold ValidateRmtDci.call_analyze_dci_results,
    ValidateRmtDci.call_create_comparison_template.
  rewrite (bool_decide_true ("DCI" ∈ _)) by done.
  rewrite (bool_decide_true ("Status" ∈ _)) by done.
  rewrite (bool_decide_true ("Service" ∈ _)) by done.
  cbn [Py.bind Py.ret].
  case_bool_decide; [|by eexists].
  case_bool_decide; by eexists.
Qed.

(** C6 (as amended). [generate_traces] ends with status 1 when the pattern
    name is unknown, and with status 0 when the name is in the catalog and
    the optional count is an integer.  [validate_rmt_dci] ends with status 0
    when the results table is missing or unreadable, or loads without a
    [DCI] column: the failed load is reported and [main] returns early,
    without an error status; it ends with status 0 as well when the table
    loads with the documented columns. *)
Theorem exit_status_of_scripts :
  (∀ py_int rnd argv,
     (2 ≤ length argv)%nat →
     patterns_get create_common_patterns (Py.item argv 1) = None →
     Py.exit_status (GenerateTraces.main py_int rnd argv) = 1%Z) ∧
  (∀ py_int rnd argv,
     (2 ≤ length argv)%nat →
     is_Some (patterns_get create_common_patterns (Py.item argv 1)) →
     ((2 < length argv)%nat → is_Some (py_int (Py.item argv 2))) →
     Py.exit_status (GenerateTraces.main py_int rnd argv) = 0%Z) ∧
  (∀ w argv,
     (2 ≤ length argv)%nat →
     ValidateRmtDci.read_dci_csv w (Py.item argv 1) = None ∨
     (∃ t, ValidateRmtDci.read_dci_csv w (Py.item argv 1) = Some t ∧
           "DCI" ∉ ValidateRmtDci.dci_columns t) →
     ValidateRmtDci.main w argv = inr ValidateRmtDci.LoadFailed ∧
     Py.exit_status (ValidateRmtDci.main w argv) = 0%Z) ∧
  (∀ w argv t,
     (2 ≤ length argv)%nat →
     ValidateRmtDci.read_dci_csv w (Py.item argv 1) = Some t →
     ValidateRmtDci.documented t →
     Py.exit_status (ValidateRmtDci.main w argv) = 0%Z).
Proof.
  split; [|split; [|split]].
  - intros py_int rnd argv Hlen Hunknown. unfold GenerateTraces.main.
    rewrite bool_decide_false by lia.
    case_bool_decide.
    + destruct (py_int (Py.item argv 2)); [|done].
      cbn [Py.bind Py.ret]. by rewrite Hunknown.
    + cbn [Py.bind Py.ret]. by rewrite Hunknown.
  - intros py_int rnd argv Hlen [pattern Hpat] Hint.
    destruct (CatalogProperties.catalog_well_formed _ _ Hpat) as [Hne Hcallers].
    unfold GenerateTraces.main. rewrite bool_decide_false by lia.
    assert (∃ n,
      (if bool_decide (2 < length argv)%nat
       then match py_int (Py.item argv 2) with
            | Some n => Py.ret n
            | None => Py.raise Py.ValueError
            end
       else Py.ret 100%Z) = inr n) as (n & ->).
    { case_bool_decide as Hl; [|by eexists].
      destruct (Hint Hl) as (n & ->). by eexists. }
    cbn [Py.bind]. rewrite Hpat.
    destruct (TraceProperties.generate_nonempty rnd pattern.1 pattern.2 n
                (CatalogProperties.catalog_fits _ _ Hpat) Hne)
      as (ts & -> & _).
    cbn [Py.bind].
    by rewrite (DciProperties.expected_dci_closed_form _ _ Hcallers).
  - intros w argv Hlen Hbad.
    assert (Hload : ValidateRmtDci.load_dci_results w (Py.item argv 1)
                    = None).
    { unfold ValidateRmtDci.load_dci_results.
      destruct Hbad as [->|(t & -> & Hno)]; [done|].
      by rewrite bool_decide_false. }
    by rewrite (validate_load_failed w argv Hlen Hload).
  - intros w argv t Hlen Hread Hdoc.
    by destruct (validate_main_documented w argv t Hlen Hread Hdoc)
      as (r & ->).
Qed.

(** The world in which no file exists or loads. *)
Lemma validate_missing_table_exits_zero :
  let w := ValidateRmtDci.mkWorld (λ _, None) (λ _, None) (λ _, false) in
  let argv := ["validate_rmt_dci.py"; "dci_output_rmt.csv"] in
  ¬ (ValidateRmtDci.read_dci_csv w (Py.item argv 1) = None →
     Py.exit_status (ValidateRmtDci.main w argv) ≠ 0%Z).
Proof. intros w argv H. by apply H. Qed.

Lemma exit_status_of_scripts_witness :
  let w := ValidateRmtDci.mkWorld (λ _, None) (λ _, None) (λ _, false) in
  let w' := ValidateRmtDci.mkWorld (λ _, Some ValidateRmtDci.example_dci)
                                   (λ _, None) (λ _, false) in
  let py_int : string → option Z := λ _, Some 5%Z in
  let rnd : Rng := λ _, 0%Qc in
  Py.exit_status
    (GenerateTraces.main py_int rnd ["generate_traces.py"; "star"; "5"])
  = 1%Z ∧
  Py.exit_status
    (GenerateTraces.main py_int rnd
       ["generate_traces.py"; "simple_chain"; "5"])
  = 0%Z ∧
  ValidateRmtDci.main w ["validate_rmt_dci.py"; "dci_output_rmt.csv"]
  = inr ValidateRmtDci.LoadFailed ∧
  Py.exit_status
    (ValidateRmtDci.main w' ["validate_rmt_dci.py"; "dci_output_rmt.csv"])
  = 0%Z.
Proof.
  intros w w' py_int rnd.
  destruct exit_status_of_scripts as (Hunknown & Hknown & Hload & Hdoc).
  split; [|split; [|split]].
  - apply Hunknown; [simpl; lia | reflexivity].
  - apply Hknown; [simpl; lia | by eexists | intros _; by eexists].
  - apply Hload; [simpl; lia | by left].
  - apply (Hdoc w' _ ValidateRmtDci.example_dci); [simpl; lia | reflexivity |].
    unfold ValidateRmtDci.documented.
    repeat split; apply (bool_decide_unpack _); by vm_compute.
Defined.

End ProcessProperties.

(** ** Further properties of the trace synthesizer *)

Module TraceExtras.
Import GenerateTraces.

(** [str] can be read back: two integers with the same numeral are equal. *)
Lemma str_inj n m : Py.str n = Py.str m → n = m.
Proof.
  unfold Py.str. intros H.
  apply DecimalZ.to_int_inj.
  assert (Hisi : ∀ z, NilZero.int_of_string
                        (NilZero.string_of_int (Z.to_int z))
                      = Some (Z.to_int z)).
  { intros z. apply NilZero.isi; destruct z; simpl; try discriminate;
      intros [= E]; by apply DecimalPos.Unsigned.to_uint_nonnil in E. }
  pose proof (Hisi n) as Hn. rewrite H, Hisi in Hn. congruence.
Qed.

Lemma trace_step_by_draw rnd ps st :
  total_fits ps →
  ps ≠ [] →
  ∃ u p, rand_val_at rnd ps (draws st) = inr u ∧
         select_pattern ps u = Some p ∧
         trace_step rnd ps (total_frequency ps) st
         = inr {| traces := traces st ++ [trace_of (trace_id st) p];
                  trace_id := trace_id st + 1;
                  draws := S (draws st);
                  loop_vars := Some p |}.
Proof.
  intros Hfits Hne. unfold trace_step, rand_val_at.
  rewrite (TraceProperties.uniform_fits rnd (draws st) _ Hfits).
  cbn [Py.bind].
  set (u := Py.fadd _ _).
  rewrite (TraceProperties.select_loop_bound_irrel _ _ (loop_vars st) None)
    by done.
  fold (select_pattern ps u).
  destruct ps as [|p0 ps]; [done|].
  destruct (TraceProperties.select_loop_cons u 0 None p0 ps)
    as (q & Hq & _).
  unfold select_pattern. rewrite Hq. by exists u, q.
Qed.

Lemma trace_loop_by_draw rnd ps n :
  total_fits ps →
  ps ≠ [] →
  ∀ st, ∃ st' new,
    trace_loop rnd ps (total_frequency ps) n st = inr st' ∧
    traces st' = traces st ++ new ∧
    length new = n ∧
    ∀ i, (i < n)%nat →
      ∃ u p, rand_val_at rnd ps (draws st + i) = inr u ∧
             select_pattern ps u = Some p ∧
             new !! i = Some (trace_of (trace_id st + Z.of_nat i) p).
Proof.
  intros Hfits Hne. induction n as [|n IH]; intros st.
  - exists st, []. simpl. repeat split.
    + by rewrite app_nil_r.
    + intros i Hi. lia.
  - destruct (trace_step_by_draw rnd ps st Hfits Hne)
      as (u & p & Hu & Hsel & Hstep).
    cbn [trace_loop]. rewrite Hstep. cbn [Py.bind].
    destruct (IH {| traces := traces st ++ [trace_of (trace_id st) p];
                    trace_id := trace_id st + 1;
                    draws := S (draws st);
                    loop_vars := Some p |})
      as (st' & new & Hloop & Htr & Hlen & Hnew).
    exists st', (trace_of (trace_id st) p :: new).
    split; [exact Hloop|]. split.
    { rewrite Htr. cbn [traces]. by rewrite <- app_assoc. }
    split; [simpl; by rewrite Hlen|].
    intros i Hi. destruct i as [|i].
    + exists u, p. rewrite Nat.add_0_r, Z.add_0_r. by repeat split.
    + destruct (Hnew i) as (v & q & Hv & Hq & Hi'); [lia|].
      cbn [draws trace_id] in Hv, Hi'.
      exists v, q. split; [|split; [exact Hq|]].
      * by replace (draws st + S i)%nat with (S (draws st) + i)%nat by lia.
      * simpl. rewrite Hi'. do 2 f_equal. lia.
Qed.

Lemma generate_by_draw rnd (services : list string)
    (call_patterns : list CallPattern) (num_traces : Z) :
  call_patterns ≠ [] →
  total_fits call_patterns →
  ∃ ts,
    generate_microservice_traces rnd services call_patterns num_traces
    = inr ts ∧
    length ts = Z.to_nat num_traces ∧
    ∀ i, (i < Z.to_nat num_traces)%nat →
      ∃ u p, rand_val_at rnd call_patterns i = inr u ∧
             select_pattern call_patterns u = Some p ∧
             ts !! i = Some (trace_of (Z.of_nat i + 1) p).
Proof.
  intros Hne Hfits. unfold generate_microservice_traces.
  destruct (trace_loop_by_draw rnd call_patterns (Z.to_nat num_traces)
              Hfits Hne
              {| traces := []; trace_id := 1; draws := 0;
                 loop_vars := None |})
    as (st' & new & Hloop & Htr & Hlen & Hnew).
  rewrite Hloop. cbn [Py.bind Py.ret]. exists (traces st').
  simpl in Htr. rewrite Htr. split; [done|]. split; [done|].
  intros i Hi. destruct (Hnew i Hi) as (u & p & Hu & Hp & Hi').
  exists u, p. split; [exact Hu|]. split; [exact Hp|].
  rewrite Hi'. cbn [trace_id]. do 2 f_equal. lia.
Qed.

(** X1. On a non-empty pattern list whose total frequency converts to a
    float, the call returns, and record [i] of the result is built from the
    pattern selected for the value of the [i]-th call of [random.uniform]
    alone, numbered [i + 1]: one draw is consumed per trace and traces do
    not influence one another. *)
Theorem generate_record_by_draw rnd (services : list string)
    (call_patterns : list CallPattern) (num_traces : Z) :
  call_patterns ≠ [] →
  total_fits call_patterns →
  ∃ ts,
    generate_microservice_traces rnd services call_patterns num_traces
    = inr ts ∧
    length ts = Z.to_nat num_traces ∧
    ∀ i, (i < Z.to_nat num_traces)%nat →
      ∃ u p, rand_val_at rnd call_patterns i = inr u ∧
             select_pattern call_patterns u = Some p ∧
             ts !! i = Some (trace_of (Z.of_nat i + 1) p).
Proof.
  intros Hne Hfits. unfold generate_microservice_traces.
  destruct (trace_loop_by_draw rnd call_patterns (Z.to_nat num_traces)
              Hfits Hne
              {| traces := []; trace_id := 1; draws := 0;
                 loop_vars := None |})
    as (st' & new & Hloop & Htr & Hlen & Hnew).
  rewrite Hloop. cbn [Py.bind Py.ret]. exists (traces st').
  simpl in Htr. rewrite Htr. split; [done|]. split; [done|].
  intros i Hi. destruct (Hnew i Hi) as (u & p & Hu & Hp & Hi').
  exists u, p. split; [exact Hu|]. split; [exact Hp|].
  rewrite Hi'. cbn [trace_id]. do 2 f_equal. lia.
Qed.

(** Weights 1 and 2, and a value of [random()] just above one third: its
    product with 3 rounds to 1, so that the first pattern is selected, where
    the exact product would select the second. *)
Example uniform_rounds_product :
  let rnd : Rng := λ _, Q2Qc (3002399751580331 # 9007199254740992) in
  let ps : list CallPattern := [("a", "b", 1%Z); ("c", "d", 2%Z)] in
  rand_val_at rnd ps 0 = inr 1%Qc ∧
  (1 < Qc_of_Z 3 * rnd 0%nat)%Qc ∧
  generate_microservice_traces rnd [] ps 1 = inr [mkTrace "1" "1" "a" "b"].
Proof.
  intros rnd ps. split; [|split].
  - apply (bool_decide_unpack _). by vm_compute.
  - by vm_compute.
  - by vm_compute.
Qed.

Lemma generate_record_by_draw_witness :
  let rnd : Rng := λ _, Q2Qc (3002399751580331 # 9007199254740992) in
  let ps : list CallPattern := [("a", "b", 1%Z); ("c", "d", 2%Z)] in
  ps ≠ [] ∧ total_fits ps ∧
  ∃ ts,
    generate_microservice_traces rnd [] ps 2 = inr ts ∧
    length ts = Z.to_nat 2 ∧
    ∀ i, (i < Z.to_nat 2)%nat →
      ∃ u p, rand_val_at rnd ps i = inr u ∧
             select_pattern ps u = Some p ∧
             ts !! i = Some (trace_of (Z.of_nat i + 1) p).
Proof.
  intros rnd ps.
  assert (Hne : ps ≠ []) by discriminate.
  assert (Hfits : total_fits ps) by (vm_compute; reflexivity).
  split; [exact Hne|]. split; [exact Hfits|].
  exact (generate_record_by_draw rnd [] ps 2 Hne Hfits).
Defined.

(** X2. Asking for more traces extends the result: with the same random
    source, and a non-empty pattern list whose total frequency converts to a
    float, the list for [N] traces is the first part of the list for any
    larger count [M]. *)
Theorem generate_prefix rnd (services : list string)
    (call_patterns : list CallPattern) (N M : Z) :
  call_patterns ≠ [] →
  total_fits call_patterns →
  (N ≤ M)%Z →
  ∃ tsN tsM,
    generate_microservice_traces rnd services call_patterns N = inr tsN ∧
    generate_microservice_traces rnd services call_patterns M = inr tsM ∧
    tsN = take (Z.to_nat N) tsM.
Proof.
  intros Hne Hfits HNM.
  destruct (generate_by_draw rnd services call_patterns N Hne Hfits)
    as (tsN & HgN & HlN & HN).
  destruct (generate_by_draw rnd services call_patterns M Hne Hfits)
    as (tsM & HgM & HlM & HM).
  exists tsN, tsM. split; [exact HgN|]. split; [exact HgM|].
  apply list_eq. intros i.
  destruct (decide (i < Z.to_nat N)%nat) as [Hi|Hi].
  - rewrite lookup_take_lt by done.
    destruct (HN i Hi) as (u & p & Hu & Hp & ->).
    destruct (HM i) as (v & q & Hv & Hq & ->); [lia|]. congruence.
  - rewrite lookup_take_ge by lia. apply lookup_ge_None. lia.
Qed.

Lemma generate_prefix_witness :
  simple_chain.2 ≠ [] ∧ total_fits simple_chain.2 ∧ (1 ≤ 3)%Z ∧
  ∃ tsN tsM,
    generate_microservice_traces (λ _, 1%Qc) [] simple_chain.2 1 = inr tsN ∧
    generate_microservice_traces (λ _, 1%Qc) [] simple_chain.2 3 = inr tsM ∧
    tsN = take (Z.to_nat 1) tsM.
Proof.
  assert (Hne : simple_chain.2 ≠ []) by discriminate.
  assert (Hfits : total_fits simple_chain.2) by (vm_compute; reflexivity).
  assert (Hle : (1 ≤ 3)%Z) by lia.
  split; [exact Hne|]. split; [exact Hfits|]. split; [exact Hle|].
  exact (generate_prefix (λ _, 1%Qc) [] simple_chain.2 1 3 Hne Hfits Hle).
Defined.

(** X3. Only the draws of the iterations that run are read: two random
    sources that agree on the first [N] draws give the same result. *)
Theorem generate_reads_first_draws (rnd rnd' : Rng)
    (services : list string) (call_patterns : list CallPattern) (N : Z) :
  (∀ i, (i < Z.to_nat N)%nat → rnd i = rnd' i) →
  generate_microservice_traces rnd services call_patterns N
  = generate_microservice_traces rnd' services call_patterns N.
Proof.
  intros Hagree. destruct call_patterns as [|p0 ps].
  { by rewrite !TraceProperties.generate_empty. }
  destruct (decide (total_fits (p0 :: ps))) as [Hfits|Hover].
  2:{ by rewrite !(TraceProperties.generate_overflow _ _ _ _ Hover). }
  destruct (generate_by_draw rnd services (p0 :: ps) N)
    as (ts & -> & Hl & Hts); [done..|].
  destruct (generate_by_draw rnd' services (p0 :: ps) N)
    as (ts' & -> & Hl' & Hts'); [done..|].
  f_equal. apply list_eq. intros i.
  destruct (decide (i < Z.to_nat N)%nat) as [Hi|Hi].
  - destruct (Hts i Hi) as (u & p & Hu & Hp & ->).
    destruct (Hts' i Hi) as (v & q & Hv & Hq & ->).
    unfold rand_val_at, uniform in Hu, Hv.
    rewrite (Hagree i Hi) in Hu. congruence.
  - rewrite !(proj2 (lookup_ge_None _ _)) by lia. done.
Qed.

Lemma generate_reads_first_draws_witness :
  let rnd : Rng := λ i, if decide (i < 2)%nat then 1%Qc else 0%Qc in
  (∀ i, (i < Z.to_nat 2)%nat → rnd i = 1%Qc) ∧
  generate_microservice_traces rnd [] simple_chain.2 2
  = generate_microservice_traces (λ _, 1%Qc) [] simple_chain.2 2.
Proof.
  intros rnd.
  assert (H : ∀ i, (i < Z.to_nat 2)%nat → rnd i = (λ _, 1%Qc) i).
  { intros i Hi. unfold rnd. destruct (decide (i < 2)%nat); [done|].
    simpl in Hi. lia. }
  split; [exact H|].
  exact (generate_reads_first_draws rnd (λ _, 1%Qc) [] simple_chain.2 2 H).
Defined.

(** X4. In a returned list no two records share a [traceId], and [id]
    repeats [traceId] in every record. *)
Theorem generate_trace_ids_distinct rnd (services : list string)
    (call_patterns : list CallPattern) (N : Z) ts :
  generate_microservice_traces rnd services call_patterns N = inr ts →
  NoDup (traceId <$> ts) ∧ Forall (λ t, id t = traceId t) ts.
Proof.
  intros Hgen. destruct call_patterns as [|p0 ps].
  { rewrite TraceProperties.generate_empty in Hgen.
    case_bool_decide; [done|]. injection Hgen as <-.
    split; constructor. }
  destruct (decide (total_fits (p0 :: ps))) as [Hfits|Hover].
  2:{ rewrite (TraceProperties.generate_overflow _ _ _ _ Hover) in Hgen.
      case_bool_decide; [done|]. injection Hgen as <-.
      split; constructor. }
  destruct (generate_by_draw rnd services (p0 :: ps) N)
    as (ts' & Hgen' & Hl & Hts); [done..|].
  rewrite Hgen in Hgen'. injection Hgen' as <-.
  assert (Hat : ∀ i t, ts !! i = Some t →
                       traceId t = Py.str (Z.of_nat i + 1) ∧
                       id t = traceId t).
  { intros i t Hi.
    destruct (Hts i) as (u & p & _ & _ & Hi').
    - apply lookup_lt_Some in Hi. lia.
    - rewrite Hi in Hi'. by injection Hi' as ->. }
  split.
  - apply NoDup_alt. intros i j x Hi Hj.
    rewrite list_lookup_fmap in Hi, Hj.
    destruct (ts !! i) as [ti|] eqn:Ei; [|done].
    destruct (ts !! j) as [tj|] eqn:Ej; [|done].
    simpl in Hi, Hj. injection Hi as Hi. injection Hj as Hj.
    destruct (Hat i ti Ei) as [Hti _]. destruct (Hat j tj Ej) as [Htj _].
    assert (Heq : Py.str (Z.of_nat i + 1) = Py.str (Z.of_nat j + 1))
      by congruence.
    apply str_inj in Heq. lia.
  - apply Forall_lookup. intros i t Hi. by destruct (Hat i t Hi).
Qed.

Lemma generate_trace_ids_distinct_witness :
  let t1 := mkTrace "1" "1" "user-service" "database" in
  let t2 := mkTrace "2" "2" "user-service" "database" in
  generate_microservice_traces (λ _, 1%Qc) [] simple_chain.2 2
  = inr [t1; t2] ∧
  NoDup (traceId <$> [t1; t2]) ∧ Forall (λ t, id t = traceId t) [t1; t2].
Proof.
  intros t1 t2.
  assert (Hgen : generate_microservice_traces (λ _, 1%Qc) [] simple_chain.2 2
                 = inr [t1; t2]).
  { vm_compute. reflexivity. }
  split; [exact Hgen|].
  exact (generate_trace_ids_distinct (λ _, 1%Qc) [] simple_chain.2 2
           [t1; t2] Hgen).
Defined.

Lemma nonneg_total_frequency ps :
  Forall (λ p, (0 ≤ freq_of p)%Z) ps → (0 ≤ total_frequency ps)%Z.
Proof.
  intros H. pose proof (TraceProperties.total_frequency_take_le ps 0 H) as Hle.
  by rewrite take_0, TraceProperties.total_frequency_nil in Hle.
Qed.

(** X5. With weights that are not negative, a pattern is selected whenever
    the draw falls in its own stretch of the cumulative scale: above the
    total weight of the patterns before it and at most that total plus its
    own weight (for the first pattern: at most its weight). *)
Theorem select_pattern_weight_interval (call_patterns : list CallPattern)
    (u : Qc) pre p post :
  Forall (λ p, (0 ≤ freq_of p)%Z) call_patterns →
  call_patterns = pre ++ p :: post →
  (pre ≠ [] → (Py.of_int (total_frequency pre) < u)%Qc) →
  (u ≤ Py.of_int (total_frequency pre + freq_of p))%Qc →
  select_pattern call_patterns u = Some p.
Proof.
  intros Hpos -> Hlow Hhigh. unfold select_pattern.
  apply TraceProperties.select_loop_first.
  - intros k Hk. rewrite Z.add_0_l.
    assert (Hpre : pre ≠ []) by (destruct pre; [simpl in Hk; lia | done]).
    eapply Qcle_lt_trans; [|exact (Hlow Hpre)].
    unfold Py.of_int. rewrite <- Z2Qc_inj_le.
    apply TraceProperties.total_frequency_take_le.
    apply Forall_app in Hpos. tauto.
  - rewrite Z.add_0_l, TraceProperties.total_frequency_app,
      TraceProperties.total_frequency_cons,
      TraceProperties.total_frequency_nil.
    by replace (total_frequency pre + (freq_of p + 0))%Z
      with (total_frequency pre + freq_of p)%Z by lia.
Qed.

Lemma select_pattern_weight_interval_witness :
  let pre : list CallPattern := [("frontend", "api-gateway", 10%Z)] in
  let p : CallPattern := ("api-gateway", "user-service", 8%Z) in
  let post : list CallPattern := [("user-service", "database", 6%Z)] in
  Forall (λ p, (0 ≤ freq_of p)%Z) simple_chain.2 ∧
  simple_chain.2 = pre ++ p :: post ∧
  (pre ≠ [] → (Py.of_int (total_frequency pre) < Q2Qc (21 # 2))%Qc) ∧
  (Q2Qc (21 # 2) ≤ Py.of_int (total_frequency pre + freq_of p))%Qc ∧
  select_pattern simple_chain.2 (Q2Qc (21 # 2)) = Some p.
Proof.
  intros pre p post.
  assert (Hpos : Forall (λ p, (0 ≤ freq_of p)%Z) simple_chain.2).
  { repeat constructor; vm_compute; discriminate. }
  assert (Hsplit : simple_chain.2 = pre ++ p :: post) by reflexivity.
  assert (Hlow : pre ≠ [] →
                 (Py.of_int (total_frequency pre) < Q2Qc (21 # 2))%Qc).
  { intros _. vm_compute. reflexivity. }
  assert (Hhigh : (Q2Qc (21 # 2)
                   ≤ Py.of_int (total_frequency pre + freq_of p))%Qc).
  { vm_compute. discriminate. }
  split; [exact Hpos|]. split; [exact Hsplit|]. split; [exact Hlow|].
  split; [exact Hhigh|].
  exact (select_pattern_weight_interval simple_chain.2 (Q2Qc (21 # 2))
           pre p post Hpos Hsplit Hlow Hhigh).
Defined.

Lemma uniform_unit_interval rnd k total :
  (0 ≤ total < 2 ^ 53)%Z →
  (0 ≤ rnd k ≤ 1)%Qc →
  ∃ u, uniform rnd k 0 total = inr u ∧ (0 ≤ u ≤ Py.of_int total)%Qc.
Proof.
  intros [H0 H53] [Hr0 Hr1].
  assert (Hfits : (Z.abs total < Py.float_limit)%Z).
  { assert (2 ^ 53 < Py.float_limit)%Z by (by vm_compute). lia. }
  rewrite (TraceProperties.uniform_fits rnd k total Hfits).
  eexists. split; [reflexivity|].
  assert (HT : (0 ≤ Qc_of_Z total)%Qc).
  { by rewrite <- Z2Qc_inj_0, <- Z2Qc_inj_le. }
  pose proof (FloatProperties.round64_nonneg _ HT) as Hw0.
  pose proof (FloatProperties.round64_le_int _ total H53 HT
                (Qcle_refl _)) as HwT.
  set (width := Py.round64 (Qc_of_Z total)) in *.
  assert (Hx0 : (0 ≤ width * rnd k)%Qc).
  { replace 0%Qc with (width * 0)%Qc by ring.
    by apply Qcmult_le_mono_nonneg_l. }
  assert (HxT : (width * rnd k ≤ Qc_of_Z total)%Qc).
  { apply Qcle_trans with width; [|exact HwT].
    assert (H1 : (width * rnd k ≤ width * 1)%Qc)
      by (by apply Qcmult_le_mono_nonneg_l).
    by rewrite Qcmult_1_r in H1. }
  unfold Py.fadd, Py.fmul, Py.of_int.
  assert (Hz : Py.round64 (Qc_of_Z 0) = 0%Qc) by reflexivity.
  rewrite Hz, Qcplus_0_l.
  pose proof (FloatProperties.round64_nonneg _ Hx0) as Hy0.
  pose proof (FloatProperties.round64_le_int _ total H53 Hx0 HxT) as HyT.
  split.
  - by apply FloatProperties.round64_nonneg.
  - by apply FloatProperties.round64_le_int.
Qed.

(** X6. When [random.random()] stays within the unit interval, no weight is
    negative and the total weight is below [2^53], no selection runs off the
    end of the list: every draw lies between 0 and the total weight, and
    every record carries the first pattern whose accumulated weight reaches
    its draw. *)
Theorem generate_unit_draws_first_reaching (rnd : Rng)
    (services : list string) (call_patterns : list CallPattern) (N : Z) :
  call_patterns ≠ [] →
  Forall (λ p, (0 ≤ freq_of p)%Z) call_patterns →
  (total_frequency call_patterns < 2 ^ 53)%Z →
  (∀ i, (0 ≤ rnd i ≤ 1)%Qc) →
  ∃ ts,
    generate_microservice_traces rnd services call_patterns N = inr ts ∧
    ∀ i, (i < Z.to_nat N)%nat →
      ∃ u p, rand_val_at rnd call_patterns i = inr u ∧
             (0 ≤ u ≤ Py.of_int (total_frequency call_patterns))%Qc ∧
             first_reaching call_patterns u p ∧
             ts !! i = Some (trace_of (Z.of_nat i + 1) p).
Proof.
  intros Hne Hpos H53 Hunit.
  pose proof (nonneg_total_frequency call_patterns Hpos) as H0.
  assert (Hfits : total_fits call_patterns).
  { unfold total_fits.
    assert (2 ^ 53 < Py.float_limit)%Z by (by vm_compute). lia. }
  destruct (generate_by_draw rnd services call_patterns N Hne Hfits)
    as (ts & Hgen & _ & Hts).
  exists ts. split; [exact Hgen|]. intros i Hi.
  destruct (Hts i Hi) as (u & p & Hu & Hsel & Hlook).
  destruct (uniform_unit_interval rnd i (total_frequency call_patterns)
              (conj H0 H53) (Hunit i)) as (u' & Hu' & Hrange).
  unfold rand_val_at in Hu. rewrite Hu in Hu'. injection Hu' as <-.
  destruct (TraceProperties.first_reaching_exists u 0 call_patterns)
    as (pre & q & post & Heq & Hlt & Hle).
  { exists (length call_patterns). split.
    - destruct call_patterns; [done | simpl; lia].
    - rewrite firstn_all, Z.add_0_l. apply Hrange. }
  assert (Hq : select_pattern call_patterns u = Some q).
  { unfold select_pattern. rewrite Heq.
    by apply TraceProperties.select_loop_first. }
  rewrite Hsel in Hq. injection Hq as ->.
  exists u, q. split; [exact Hu|]. split; [exact Hrange|].
  split; [|exact Hlook].
  exists pre, post. split; [done|]. split.
  - intros k Hk. specialize (Hlt k Hk). by rewrite Z.add_0_l in Hlt.
  - by rewrite Z.add_0_l in Hle.
Qed.

Lemma generate_unit_draws_first_reaching_witness :
  let rnd : Rng := λ _, Q2Qc (1 # 2) in
  simple_chain.2 ≠ [] ∧
  Forall (λ p, (0 ≤ freq_of p)%Z) simple_chain.2 ∧
  (total_frequency simple_chain.2 < 2 ^ 53)%Z ∧
  (∀ i, (0 ≤ rnd i ≤ 1)%Qc) ∧
  ∃ ts,
    generate_microservice_traces rnd [] simple_chain.2 2 = inr ts ∧
    ∀ i, (i < Z.to_nat 2)%nat →
      ∃ u p, rand_val_at rnd simple_chain.2 i = inr u ∧
             (0 ≤ u ≤ Py.of_int (total_frequency simple_chain.2))%Qc ∧
             first_reaching simple_chain.2 u p ∧
             ts !! i = Some (trace_of (Z.of_nat i + 1) p).
Proof.
  intros rnd.
  assert (Hne : simple_chain.2 ≠ []) by discriminate.
  assert (Hpos : Forall (λ p, (0 ≤ freq_of p)%Z) simple_chain.2).
  { repeat constructor; vm_compute; discriminate. }
  assert (H53 : (total_frequency simple_chain.2 < 2 ^ 53)%Z).
  { vm_compute. reflexivity. }
  assert (Hunit : ∀ i, (0 ≤ rnd i ≤ 1)%Qc).
  { intros i. split; vm_compute; discriminate. }
  split; [exact Hne|]. split; [exact Hpos|]. split; [exact H53|].
  split; [exact Hunit|].
  exact (generate_unit_draws_first_reaching rnd [] simple_chain.2 2
           Hne Hpos H53 Hunit).
Defined.

End TraceExtras.

(** ** Further properties of the expected-DCI report *)

Module DciExtras.
Import GenerateTraces.

Lemma add_calls_app pre rest (m : gmap string (gset string)) :
  add_calls (pre ++ rest) m = Py.bind (add_calls pre m) (add_calls rest).
Proof.
  revert m. induction pre as [|p pre IH]; intros m; [done|].
  cbn [app add_calls]. destruct (m !! caller_of p); [apply IH | done].
Qed.

(** X7. A call whose caller is not a listed service stops the report with
    [KeyError] on that caller: the first such call decides, and no line is
    produced. *)
Theorem expected_dci_first_unlisted_caller (services : list string)
    (pre : list CallPattern) (p : CallPattern) (post : list CallPattern) :
  Forall (λ q, caller_of q ∈ services) pre →
  caller_of p ∉ services →
  expected_dci services (pre ++ p :: post)
  = inl (Py.KeyError (caller_of p)).
Proof.
  intros Hpre Hp. unfold expected_dci. rewrite add_calls_app.
  destruct (DciProperties.add_calls_ok pre (init_service_calls services))
    as (m' & -> & Hlook).
  { eapply Forall_impl; [exact Hpre|]. intros q Hq. simpl.
    rewrite DciProperties.init_service_calls_lookup, decide_True by done.
    eauto. }
  cbn [Py.bind add_calls].
  rewrite Hlook, DciProperties.init_service_calls_lookup,
    decide_False by done.
  done.
Qed.

Lemma expected_dci_first_unlisted_caller_witness :
  let services := ["a"; "b"] in
  let pre : list CallPattern := [("a", "b", 3%Z)] in
  let p : CallPattern := ("c", "a", 1%Z) in
  let post : list CallPattern := [("d", "a", 1%Z)] in
  Forall (λ q, caller_of q ∈ services) pre ∧
  (caller_of p ∉ services) ∧
  expected_dci services (pre ++ p :: post) = inl (Py.KeyError "c").
Proof.
  intros services pre p post.
  assert (Hpre : Forall (λ q, caller_of q ∈ services) pre).
  { apply (bool_decide_unpack _). vm_compute. exact I. }
  assert (Hp : caller_of p ∉ services).
  { apply (bool_decide_unpack _). vm_compute. exact I. }
  split; [exact Hpre|]. split; [exact Hp|].
  exact (expected_dci_first_unlisted_caller services pre p post Hpre Hp).
Defined.

Lemma add_calls_ignores_weights calls :
  ∀ calls' (m : gmap string (gset string)),
    fst <$> calls = fst <$> calls' →
    add_calls calls m = add_calls calls' m.
Proof.
  induction calls as [|p calls IH]; intros [|p' calls'] m Heq;
    try done.
  rewrite !fmap_cons in Heq. injection Heq as Hp Hrest.
  cbn [add_calls]. unfold caller_of, callee_of. rewrite <- Hp.
  destruct (m !! p.1.1); [by apply IH | done].
Qed.

(** X8. The frequencies play no part in the report: two call lists with the
    same callers and callees in the same order give the same outcome, lines
    or error. *)
Theorem expected_dci_ignores_weights (services : list string)
    (calls calls' : list CallPattern) :
  fst <$> calls = fst <$> calls' →
  expected_dci services calls = expected_dci services calls'.
Proof.
  intros Heq. unfold expected_dci.
  by rewrite (add_calls_ignores_weights calls calls').
Qed.

Lemma expected_dci_ignores_weights_witness :
  let calls' : list CallPattern :=
    [("frontend", "api-gateway", 1%Z);
     ("api-gateway", "user-service", (-4)%Z);
     ("user-service", "database", 0%Z)] in
  (fst <$> simple_chain.2) = (fst <$> calls') ∧
  expected_dci simple_chain.1 simple_chain.2
  = expected_dci simple_chain.1 calls'.
Proof.
  intros calls'.
  assert (Heq : (fst <$> simple_chain.2) = (fst <$> calls')) by reflexivity.
  split; [exact Heq|].
  exact (expected_dci_ignores_weights simple_chain.1 simple_chain.2 calls'
           Heq).
Defined.

Lemma size_list_to_set_le (l : list string) :
  (size (list_to_set l : gset string) ≤ length l)%nat.
Proof.
  induction l as [|x l IH]; [done|].
  rewrite list_to_set_cons. cbn [length].
  rewrite size_union_alt, size_singleton.
  assert (Hsub : list_to_set l ∖ {[x]} ⊆ (list_to_set l : gset string))
    by set_solver.
  apply subseteq_size in Hsub. lia.
Qed.

Lemma closed_template_callees_set services calls S :
  closed_template services calls →
  callees_set calls S ⊆ list_to_set services ∖ {[S]}.
Proof.
  intros Hclosed x Hx.
  apply DciProperties.elem_of_callees_set in Hx as (p & Hp & Hc & Hd).
  apply (proj1 (Forall_forall _ _) Hclosed) in Hp as (_ & Hcallee & Hself).
  apply elem_of_difference. split.
  - apply elem_of_list_to_set. by rewrite <- Hd.
  - rewrite elem_of_singleton. congruence.
Qed.

Lemma closed_template_distinct_bound services calls S :
  closed_template services calls →
  S ∈ services →
  (Z.of_nat (distinctCallees calls S) ≤ Z.of_nat (length services) - 1)%Z.
Proof.
  intros Hclosed HS.
  rewrite <- DciProperties.size_callees_set.
  pose proof (subseteq_size _ _
                (closed_template_callees_set services calls S Hclosed))
    as Hsub.
  rewrite size_difference in Hsub.
  2:{ intros x ->%elem_of_singleton. by apply elem_of_list_to_set. }
  rewrite size_singleton in Hsub.
  pose proof (size_list_to_set_le services).
  assert (1 ≤ length services)%nat.
  { destruct services; [by apply elem_of_nil in HS | simpl; lia]. }
  lia.
Qed.

Lemma dci_of_bounds a m :
  (0 ≤ a ≤ m)%Z → (0 ≤ dci_of a m ≤ 1)%Qc.
Proof.
  intros [Ha Ham]. unfold dci_of. case_bool_decide as Hm.
  2:{ split; [done|]. by vm_compute. }
  unfold Py.of_int.
  assert (Hmpos : (0 < Qc_of_Z m)%Qc).
  { by rewrite <- Z2Qc_inj_0, <- Z2Qc_inj_lt. }
  assert (Hinv : (0 ≤ / Qc_of_Z m)%Qc).
  { apply Qclt_le_weak. by apply Qcinv_pos. }
  unfold Qcdiv. split.
  - rewrite <- (Qcmult_0_l (/ Qc_of_Z m)).
    apply Qcmult_le_compat_r; [|done].
    by rewrite <- Z2Qc_inj_0, <- Z2Qc_inj_le.
  - rewrite <- (Qcmult_inv_r (Qc_of_Z m)).
    + apply Qcmult_le_compat_r; [|done]. by rewrite <- Z2Qc_inj_le.
    + intros E. rewrite E in Hmpos. by apply Qclt_not_eq in Hmpos.
Qed.

(** X9. For a template whose callers and callees are all listed services
    and in which no service calls itself, the report is produced and every
    score lies between 0 and 1. *)
Theorem expected_dci_between_0_and_1 (services : list string)
    (calls : list CallPattern) :
  closed_template services calls →
  ∃ lines,
    expected_dci services calls = inr lines ∧
    Forall (λ l, (0 ≤ line_dci l ≤ 1)%Qc) lines.
Proof.
  intros Hclosed.
  exists (line_for services calls <$> services). split.
  - apply DciProperties.expected_dci_closed_form.
    eapply Forall_impl; [exact Hclosed|]. by intros p (? & _).
  - apply Forall_fmap, Forall_forall. intros S HS.
    unfold line_for. cbn [line_dci compose].
    apply dci_of_bounds. split; [lia|].
    by apply closed_template_distinct_bound.
Qed.

Lemma expected_dci_between_0_and_1_witness :
  closed_template microservice_mesh.1 microservice_mesh.2 ∧
  ∃ lines,
    expected_dci microservice_mesh.1 microservice_mesh.2 = inr lines ∧
    Forall (λ l, (0 ≤ line_dci l ≤ 1)%Qc) lines.
Proof.
  assert (H : closed_template microservice_mesh.1 microservice_mesh.2).
  { apply (bool_decide_unpack _). vm_compute. exact I. }
  split; [exact H|].
  exact (expected_dci_between_0_and_1 microservice_mesh.1
           microservice_mesh.2 H).
Defined.

Lemma Qc_ratio_le c d a m :
  (0 < d)%Z → (0 < m)%Z →
  (Qc_of_Z c / Qc_of_Z d ≤ Qc_of_Z a / Qc_of_Z m)%Qc ↔ (c * m ≤ a * d)%Z.
Proof.
  intros Hd Hm.
  assert (Hd' : (0 < Qc_of_Z d)%Qc) by by rewrite <- Z2Qc_inj_0, <- Z2Qc_inj_lt.
  assert (Hm' : (0 < Qc_of_Z m)%Qc) by by rewrite <- Z2Qc_inj_0, <- Z2Qc_inj_lt.
  assert (Hdn : Qc_of_Z d ≠ 0%Qc).
  { intros E. rewrite E in Hd'. by apply Qclt_not_eq in Hd'. }
  assert (Hmn : Qc_of_Z m ≠ 0%Qc).
  { intros E. rewrite E in Hm'. by apply Qclt_not_eq in Hm'. }
  rewrite (Qcmult_le_mono_pos_r _ _ (Qc_of_Z d * Qc_of_Z m)%Qc).
  2:{ rewrite <- (Qcmult_0_l (Qc_of_Z m)).
      by apply Qcmult_lt_mono_pos_r. }
  replace (Qc_of_Z c / Qc_of_Z d * (Qc_of_Z d * Qc_of_Z m))%Qc
    with (Qc_of_Z c * Qc_of_Z m)%Qc by (field; done).
  replace (Qc_of_Z a / Qc_of_Z m * (Qc_of_Z d * Qc_of_Z m))%Qc
    with (Qc_of_Z a * Qc_of_Z d)%Qc by (field; done).
  by rewrite <- !Z2Qc_inj_mul, <- Z2Qc_inj_le.
Qed.

Lemma Qc_ratio_pos a m :
  (0 < m)%Z → (0 < Qc_of_Z a / Qc_of_Z m)%Qc ↔ (0 < a)%Z.
Proof.
  intros Hm.
  assert (Hm' : (0 < Qc_of_Z m)%Qc) by by rewrite <- Z2Qc_inj_0, <- Z2Qc_inj_lt.
  assert (Hmn : Qc_of_Z m ≠ 0%Qc).
  { intros E. rewrite E in Hm'. by apply Qclt_not_eq in Hm'. }
  rewrite (Qcmult_lt_mono_pos_r _ _ (Qc_of_Z m)) by done.
  replace (Qc_of_Z a / Qc_of_Z m * Qc_of_Z m)%Qc with (Qc_of_Z a)
    by (field; done).
  by rewrite Qcmult_0_l, <- Z2Qc_inj_0, <- Z2Qc_inj_lt.
Qed.

Lemma coupling_status_by_counts a m :
  (0 ≤ a)%Z →
  coupling_status (dci_of a m)
  = if bool_decide (m ≤ 0 ∨ a = 0)%Z then "No"
    else if bool_decide (7 * m ≤ 10 * a)%Z then "High"
    else if bool_decide (4 * m ≤ 10 * a)%Z then "Moderate"
    else "Low".
Proof.
  intros Ha. unfold dci_of. case_bool_decide as Hm.
  2:{ rewrite bool_decide_true by lia. by vm_compute. }
  unfold coupling_status, Py.ge, Py.gt, Py.le, Py.lt, Py.of_int.
  replace (Q2Qc (7 # 10)) with (Qc_of_Z 7 / Qc_of_Z 10)%Qc
    by (apply Qc_is_canon; reflexivity).
  replace (Q2Qc (4 # 10)) with (Qc_of_Z 4 / Qc_of_Z 10)%Qc
    by (apply Qc_is_canon; reflexivity).
  rewrite (bool_decide_ext _ _ (Qc_ratio_le 7 10 a m ltac:(lia) Hm)).
  rewrite (bool_decide_ext _ _ (Qc_ratio_le 4 10 a m ltac:(lia) Hm)).
  rewrite (bool_decide_ext _ _ (Qc_ratio_pos a m Hm)).
  repeat case_bool_decide; try done; lia.
Qed.

(** X10. The status of a printed line follows from its two integers alone,
    without any rounding: with [a] outgoing calls out of [m] possible ones
    it is No when [m <= 0] or [a = 0], else High when [7 m <= 10 a], else
    Moderate when [4 m <= 10 a], else Low. *)
Theorem expected_dci_status_by_counts (services : list string)
    (calls : list CallPattern) lines :
  expected_dci services calls = inr lines →
  Forall (λ l,
    let a := line_actual_calls l in
    let m := line_max_possible l in
    m = (Z.of_nat (length services) - 1)%Z ∧
    a = Z.of_nat (distinctCallees calls (line_service l)) ∧
    line_status l
    = if bool_decide (m ≤ 0 ∨ a = 0)%Z then "No"
      else if bool_decide (7 * m ≤ 10 * a)%Z then "High"
      else if bool_decide (4 * m ≤ 10 * a)%Z then "Moderate"
      else "Low") lines.
Proof.
  intros Hres.
  destruct (decide (Forall (λ p, caller_of p ∈ services) calls))
    as [Hall|Hall].
  2:{ destruct (DciProperties.expected_dci_key_error services calls Hall)
        as (k & Hk). congruence. }
  rewrite (DciProperties.expected_dci_closed_form services calls Hall) in Hres.
  injection Hres as <-.
  apply Forall_fmap, Forall_forall. intros S _. cbn [compose].
  unfold line_for.
  cbn [line_actual_calls line_max_possible line_status line_service].
  cbn zeta. split; [done|]. split; [done|].
  apply coupling_status_by_counts. lia.
Qed.

Lemma expected_dci_status_by_counts_witness :
  ∃ lines,
    expected_dci event_driven.1 event_driven.2 = inr lines ∧
    Forall (λ l,
      let a := line_actual_calls l in
      let m := line_max_possible l in
      m = (Z.of_nat (length event_driven.1) - 1)%Z ∧
      a = Z.of_nat (distinctCallees event_driven.2 (line_service l)) ∧
      line_status l
      = if bool_decide (m ≤ 0 ∨ a = 0)%Z then "No"
        else if bool_decide (7 * m ≤ 10 * a)%Z then "High"
        else if bool_decide (4 * m ≤ 10 * a)%Z then "Moderate"
        else "Low") lines.
Proof.
  assert (Hcallers : Forall (λ p, caller_of p ∈ event_driven.1)
                       event_driven.2).
  { apply (bool_decide_unpack _). vm_compute. exact I. }
  exists (line_for event_driven.1 event_driven.2 <$> event_driven.1).
  assert (Hres : expected_dci event_driven.1 event_driven.2
                 = inr (line_for event_driven.1 event_driven.2
                          <$> event_driven.1)).
  { exact (DciProperties.expected_dci_closed_form _ _ Hcallers). }
  split; [exact Hres|].
  exact (expected_dci_status_by_counts event_driven.1 event_driven.2 _ Hres).
Defined.

End DciExtras.

(** ** Further properties of [generate_traces.main] *)

Module GenerateMainExtras.
Import GenerateTraces.

(** Every template of the catalog is closed and has call patterns. *)
Lemma catalog_closed name pattern :
  patterns_get create_common_patterns name = Some pattern →
  pattern.2 ≠ [] ∧ closed_template pattern.1 pattern.2.
Proof.
  unfold create_common_patterns. cbn [patterns_get].
  repeat case_decide; intros Hp; try done; injection Hp as <-;
    (split; [done | apply (bool_decide_unpack _); by vm_compute]).
Qed.

Lemma main_unfold py_int rnd argv :
  (2 ≤ length argv)%nat →
  GenerateTraces.main py_int rnd argv
  = match requested py_int argv with
    | None => inl Py.ValueError
    | Some n =>
        match patterns_get create_common_patterns (Py.item argv 1) with
        | None => inl (Py.SystemExit 1)
        | Some pattern =>
            traces <- generate_microservice_traces rnd pattern.1 pattern.2 n ;;
            lines <- expected_dci pattern.1 pattern.2 ;;
            Py.ret (mkOutput ("traces_" +:+ Py.item argv 1 +:+ ".json")
                             traces lines)
        end
    end.
Proof.
  intros Hlen. unfold GenerateTraces.main, requested.
  rewrite bool_decide_false by lia.
  case_bool_decide; [|done].
  by destruct (py_int (Py.item argv 2)).
Qed.

Lemma main_on_known_pattern py_int rnd (argv : list string) pattern n :
  (2 ≤ length argv)%nat →
  patterns_get create_common_patterns (Py.item argv 1) = Some pattern →
  requested py_int argv = Some n →
  ∃ ts lines,
    GenerateTraces.main py_int rnd argv
    = inr (mkOutput ("traces_" +:+ Py.item argv 1 +:+ ".json") ts lines) ∧
    length ts = Z.to_nat n ∧
    Forall (λ t, localEndpoint t ∈ pattern.1 ∧
                 remoteEndpoint t ∈ pattern.1 ∧
                 localEndpoint t ≠ remoteEndpoint t) ts ∧
    line_service <$> lines = pattern.1 ∧
    Forall (λ l, (0 ≤ line_dci l ≤ 1)%Qc) lines.
Proof.
  intros Hlen Hpat Hn.
  destruct (catalog_closed _ _ Hpat) as [Hne Hclosed].
  rewrite main_unfold, Hn, Hpat by done.
  destruct (TraceProperties.generate_nonempty rnd pattern.1 pattern.2 n
              (CatalogProperties.catalog_fits _ _ Hpat) Hne)
    as (ts & -> & Hl & Hnum).
  assert (Hcallers : Forall (λ p, caller_of p ∈ pattern.1) pattern.2).
  { eapply Forall_impl; [exact Hclosed|]. by intros p (? & _). }
  rewrite (DciProperties.expected_dci_closed_form _ _ Hcallers).
  cbn [Py.bind Py.ret].
  exists ts, (line_for pattern.1 pattern.2 <$> pattern.1).
  split; [done|]. split; [done|]. split; [|split].
  - apply Forall_lookup. intros i t Hi.
    destruct (Hnum i t Hi) as (p & Hp & ->).
    apply (proj1 (Forall_forall _ _) Hclosed) in Hp. exact Hp.
  - rewrite <- list_fmap_compose. apply list_fmap_id.
  - apply Forall_fmap, Forall_forall. intros S HS.
    unfold line_for. cbn [line_dci compose].
    apply DciExtras.dci_of_bounds. split; [lia|].
    by apply DciExtras.closed_template_distinct_bound.
Qed.

(** X11. For a pattern name of the catalog and a count [n] (the integer
    given, or 100 by default), [main] ends normally having written
    [max(n, 0)] traces to [traces_<name>.json], each between two different
    listed services of the template, and having printed one line per listed
    service with a score between 0 and 1. *)
Theorem main_known_pattern py_int rnd (argv : list string) pattern n :
  (2 ≤ length argv)%nat →
  patterns_get create_common_patterns (Py.item argv 1) = Some pattern →
  requested py_int argv = Some n →
  ∃ ts lines,
    GenerateTraces.main py_int rnd argv
    = inr (mkOutput ("traces_" +:+ Py.item argv 1 +:+ ".json") ts lines) ∧
    length ts = Z.to_nat n ∧
    Forall (λ t, localEndpoint t ∈ pattern.1 ∧
                 remoteEndpoint t ∈ pattern.1 ∧
                 localEndpoint t ≠ remoteEndpoint t) ts ∧
    line_service <$> lines = pattern.1 ∧
    Forall (λ l, (0 ≤ line_dci l ≤ 1)%Qc) lines.
Proof.
  intros Hlen Hpat Hn.
  destruct (catalog_closed _ _ Hpat) as [Hne Hclosed].
  rewrite main_unfold, Hn, Hpat by done.
  destruct (TraceProperties.generate_nonempty rnd pattern.1 pattern.2 n
              (CatalogProperties.catalog_fits _ _ Hpat) Hne)
    as (ts & -> & Hl & Hnum).
  assert (Hcallers : Forall (λ p, caller_of p ∈ pattern.1) pattern.2).
  { eapply Forall_impl; [exact Hclosed|]. by intros p (? & _). }
  rewrite (DciProperties.expected_dci_closed_form _ _ Hcallers).
  cbn [Py.bind Py.ret].
  exists ts, (line_for pattern.1 pattern.2 <$> pattern.1).
  split; [done|]. split; [done|]. split; [|split].
  - apply Forall_lookup. intros i t Hi.
    destruct (Hnum i t Hi) as (p & Hp & ->).
    apply (proj1 (Forall_forall _ _) Hclosed) in Hp. exact Hp.
  - rewrite <- list_fmap_compose. apply list_fmap_id.
  - apply Forall_fmap, Forall_forall. intros S HS.
    unfold line_for. cbn [line_dci compose].
    apply DciExtras.dci_of_bounds. split; [lia|].
    by apply DciExtras.closed_template_distinct_bound.
Qed.

Lemma main_known_pattern_witness :
  let py_int : string → option Z := λ _, Some 7%Z in
  let argv := ["generate_traces.py"; "ecommerce"; "7"] in
  (2 ≤ length argv)%nat ∧
  patterns_get create_common_patterns (Py.item argv 1) = Some ecommerce ∧
  requested py_int argv = Some 7%Z ∧
  ∃ ts lines,
    GenerateTraces.main py_int (λ _, 0%Qc) argv
    = inr (mkOutput ("traces_" +:+ Py.item argv 1 +:+ ".json") ts lines) ∧
    length ts = Z.to_nat 7 ∧
    Forall (λ t, localEndpoint t ∈ ecommerce.1 ∧
                 remoteEndpoint t ∈ ecommerce.1 ∧
                 localEndpoint t ≠ remoteEndpoint t) ts ∧
    line_service <$> lines = ecommerce.1 ∧
    Forall (λ l, (0 ≤ line_dci l ≤ 1)%Qc) lines.
Proof.
  intros py_int argv.
  assert (Hlen : (2 ≤ length argv)%nat) by (simpl; lia).
  assert (Hpat : patterns_get create_common_patterns (Py.item argv 1)
                 = Some ecommerce) by reflexivity.
  assert (Hn : requested py_int argv = Some 7%Z) by reflexivity.
  split; [exact Hlen|]. split; [exact Hpat|]. split; [exact Hn|].
  exact (main_known_pattern py_int (λ _, 0%Qc) argv ecommerce 7
           Hlen Hpat Hn).
Defined.

(** X12. [main] can only stop with [ValueError] or [sys.exit(1)], never with
    [KeyError] or an unbound variable.  It stops with [ValueError] exactly
    when a count is given that is no integer, whether or not the pattern
    name is known, and with [sys.exit(1)] exactly when the pattern argument
    is absent, or the count is acceptable and the name is not in the
    catalog. *)
Theorem main_failures py_int rnd (argv : list string) :
  (GenerateTraces.main py_int rnd argv = inl Py.ValueError ↔
   (2 < length argv)%nat ∧ py_int (Py.item argv 2) = None) ∧
  (GenerateTraces.main py_int rnd argv = inl (Py.SystemExit 1) ↔
   (length argv < 2)%nat ∨
   (is_Some (requested py_int argv) ∧
    patterns_get create_common_patterns (Py.item argv 1) = None)) ∧
  (∀ e, GenerateTraces.main py_int rnd argv = inl e →
        e = Py.ValueError ∨ e = Py.SystemExit 1).
Proof.
  destruct (decide (length argv < 2)%nat) as [Hshort|Hlong].
  { assert (Hmain : GenerateTraces.main py_int rnd argv
                    = inl (Py.SystemExit 1)).
    { unfold GenerateTraces.main. by rewrite bool_decide_true. }
    rewrite Hmain. split; [|split].
    - split; [done | intros [? _]; lia].
    - split; [by left | done].
    - intros e [= <-]. by right. }
  rewrite main_unfold by lia. unfold requested.
  case_bool_decide as Hcount.
  - destruct (py_int (Py.item argv 2)) as [n|] eqn:Hint.
    + destruct (patterns_get create_common_patterns (Py.item argv 1))
        as [pattern|] eqn:Hpat.
      * destruct (main_on_known_pattern py_int rnd argv pattern n)
          as (ts & lines & Hmain & _); [lia | done | |].
        { unfold requested. by rewrite bool_decide_true. }
        rewrite main_unfold in Hmain by lia. unfold requested in Hmain.
        rewrite bool_decide_true, Hint, Hpat in Hmain by done.
        rewrite Hmain. split; [|split].
        -- split; [done | by intros [_ ?]].
        -- split; [done | intros [?|[_ ?]]; [lia | done]].
        -- done.
      * split; [|split].
        -- split; [done | by intros [_ ?]].
        -- split; [|done]. intros _. right. split; [by eexists | done].
        -- intros e [= <-]. by right.
    + split; [|split].
      * by split.
      * split; [done | intros [?|[[? ?] _]]; [lia | done]].
      * intros e [= <-]. by left.
  - destruct (patterns_get create_common_patterns (Py.item argv 1))
      as [pattern|] eqn:Hpat.
    + destruct (main_on_known_pattern py_int rnd argv pattern 100)
        as (ts & lines & Hmain & _); [lia | done | |].
      { unfold requested. by rewrite bool_decide_false. }
      rewrite main_unfold in Hmain by lia. unfold requested in Hmain.
      rewrite bool_decide_false, Hpat in Hmain by done.
      rewrite Hmain. split; [|split].
      * split; [done | intros [? _]; lia].
      * split; [done | intros [?|[_ ?]]; [lia | done]].
      * done.
    + split; [|split].
      * split; [done | intros [? _]; lia].
      * split; [|done]. intros _. right. split; [by eexists | done].
      * intros e [= <-]. by right.
Qed.

Lemma main_failures_witness :
  let py_int : string → option Z := λ _, None in
  let argv := ["generate_traces.py"; "star"; "many"] in
  (2 < length argv)%nat ∧ py_int (Py.item argv 2) = None ∧
  patterns_get create_common_patterns (Py.item argv 1) = None ∧
  GenerateTraces.main py_int (λ _, 0%Qc) argv = inl Py.ValueError.
Proof.
  intros py_int argv.
  assert (Hlen : (2 < length argv)%nat) by (simpl; lia).
  assert (Hint : py_int (Py.item argv 2) = None) by reflexivity.
  split; [exact Hlen|]. split; [exact Hint|]. split; [reflexivity|].
  exact (proj2 (proj1 (main_failures py_int (λ _, 0%Qc) argv))
           (conj Hlen Hint)).
Defined.

End GenerateMainExtras.

(** ** Further properties of the result analyzer and of the comparator *)

Module ValidateExtras.
Import ValidateRmtDci.

Lemma counts_total_insert (counts : gmap string nat) v :
  counts_total (<[v := S (default 0%nat (counts !! v))]> counts)
  = S (counts_total counts).
Proof.
  unfold counts_total.
  assert (Hcomm : ∀ (m : gmap string nat) (j1 j2 : string) (z1 z2 y : nat),
            j1 ≠ j2 → m !! j1 = Some z1 → m !! j2 = Some z2 →
            (z1 + (z2 + y) = z2 + (z1 + y))%nat) by (intros; lia).
  destruct (counts !! v) as [n|] eqn:Hv; cbn [default from_option].
  - rewrite <- insert_delete_eq.
    rewrite map_fold_insert_L; [|by eauto | apply lookup_delete_eq].
    rewrite (map_fold_delete_L _ _ v n counts); [|by eauto | done].
    unfold id. lia.
  - rewrite map_fold_insert_L; [done | by eauto | done].
Qed.

Lemma counts_total_fold (counts : gmap string nat)
    (column : list (option string)) :
  counts_total
    (foldl (λ counts cell,
              match cell with
              | Some v => <[v := S (default 0%nat (counts !! v))]> counts
              | None => counts
              end)
           counts column)
  = (counts_total counts + length (filter is_Some column))%nat.
Proof.
  revert counts. induction column as [|x column IH]; intros counts.
  - simpl. lia.
  - cbn [foldl]. rewrite IH, filter_cons. destruct x as [v|].
    + rewrite decide_True by done. rewrite counts_total_insert.
      cbn [length]. lia.
    + rewrite decide_False by (by intros [? ?]). done.
Qed.

Lemma filter_is_Some_Status (df : list DciRow) :
  length (filter is_Some (Status <$> df))
  = length (filter (λ r, is_Some (Status r)) df).
Proof.
  induction df as [|r df IH]; [done|].
  rewrite fmap_cons, !filter_cons.
  destruct (decide (is_Some (Status r))); simpl; by rewrite IH.
Qed.

(** X13. The counts of the status distribution add up to the number of rows
    that have a status: every such row is counted once, under its own
    status, and a row whose status cell is missing is not counted. *)
Theorem status_counts_total (df : list DciRow) :
  counts_total (status_counts (analyze_dci_results df))
  = length (filter (λ r, is_Some (Status r)) df).
Proof.
  cbn [analyze_dci_results status_counts]. unfold value_counts.
  rewrite counts_total_fold, filter_is_Some_Status.
  unfold counts_total. by rewrite map_fold_empty.
Qed.

Lemma filter_unique_key (mci_df : list MciRow) s :
  NoDup (mci_Service <$> mci_df) →
  (length (filter (λ m, mci_Service m = s) mci_df) ≤ 1)%nat.
Proof.
  induction mci_df as [|m mci_df IH]; intros Hnd; [simpl; lia|].
  rewrite fmap_cons in Hnd. apply NoDup_cons in Hnd as [Hm Hnd].
  rewrite filter_cons. destruct (decide (mci_Service m = s)) as [<-|Hne].
  - assert (Hnone : filter (λ m', mci_Service m' = mci_Service m) mci_df
                    = []).
    { apply elem_of_nil_inv. intros m' Hm'.
      apply list_elem_of_filter in Hm' as [Heq Hm'].
      apply Hm. rewrite <- Heq. apply list_elem_of_fmap. by exists m'. }
    rewrite Hnone. simpl. lia.
  - by apply IH.
Qed.

Lemma merge_cons d dci_df mci_df :
  merge (d :: dci_df) mci_df
  = ((λ m, mkMergedRow (Service d) (DCI d) (Status d)
                       (MCI_Afferent m) (MCI_Efferent m))
       <$> filter (λ m, mci_Service m = Service d) mci_df)
    ++ merge dci_df mci_df.
Proof.
  assert (Hone : ∀ (g : MciRow → MergedRow) (l : list MciRow),
            (m ← l; [g m]) = g <$> l).
  { intros g l. induction l as [|m l IH]; [done|].
    by rewrite bind_cons, fmap_cons, IH. }
  unfold merge. by rewrite bind_cons, Hone.
Qed.

Lemma merge_services_sublist dci_df mci_df :
  NoDup (mci_Service <$> mci_df) →
  (m_Service <$> merge dci_df mci_df) `sublist_of` (Service <$> dci_df).
Proof.
  intros Hnd. induction dci_df as [|d dci_df IH]; [done|].
  rewrite merge_cons, fmap_app, fmap_cons.
  pose proof (filter_unique_key mci_df (Service d) Hnd) as Hlen.
  destruct (filter (λ m, mci_Service m = Service d) mci_df) as [|m [|m' l]].
  - simpl. by apply sublist_cons.
  - simpl. by apply sublist_skip.
  - simpl in Hlen. lia.
Qed.

(** X14. When no service occurs twice in the reference table, the join
    keeps the order of the DCI table and has at most one row per DCI row;
    when no service occurs twice in the DCI table either, no service occurs
    twice in the join, which then has at most as many rows as each table. *)
Theorem merge_unique_services (dci_df : list DciRow)
    (mci_df : list MciRow) :
  NoDup (mci_Service <$> mci_df) →
  (m_Service <$> merge dci_df mci_df) `sublist_of` (Service <$> dci_df) ∧
  (length (merge dci_df mci_df) ≤ length dci_df)%nat ∧
  (NoDup (Service <$> dci_df) →
   NoDup (m_Service <$> merge dci_df mci_df) ∧
   (length (merge dci_df mci_df) ≤ length mci_df)%nat).
Proof.
  intros Hnd.
  pose proof (merge_services_sublist dci_df mci_df Hnd) as Hsub.
  split; [exact Hsub|]. split.
  - apply sublist_length in Hsub. by rewrite !length_fmap in Hsub.
  - intros Hnd'.
    assert (Hnd'' : NoDup (m_Service <$> merge dci_df mci_df))
      by (eapply sublist_NoDup; eauto).
    split; [exact Hnd''|].
    rewrite <- (length_fmap m_Service), <- (length_fmap mci_Service mci_df).
    apply submseteq_length, NoDup_submseteq; [exact Hnd''|].
    intros s Hs. apply list_elem_of_fmap in Hs as (r & -> & Hr).
    apply ValidateProperties.elem_of_merge in Hr
      as (d & m & _ & Hm & Hkey & ->).
    simpl. rewrite <- Hkey. apply list_elem_of_fmap. by exists m.
Qed.

Lemma merge_unique_services_witness :
  let dci_df := [mkDciRow "svcA" (Py.float_lit (8 # 10)) (Some "High");
                 mkDciRow "svcB" (Py.float_lit (1 # 10)) (Some "Low")] in
  let mci_df := [mkMciRow "svcB" (Py.float_lit (2 # 10)) None;
                 mkMciRow "svcA" (Py.float_lit (75 # 100)) None;
                 mkMciRow "svcC" (Py.float_lit (2 # 10)) None] in
  NoDup (mci_Service <$> mci_df) ∧
  NoDup (Service <$> dci_df) ∧
  (m_Service <$> merge dci_df mci_df) `sublist_of` (Service <$> dci_df) ∧
  (length (merge dci_df mci_df) ≤ length dci_df)%nat ∧
  NoDup (m_Service <$> merge dci_df mci_df) ∧
  (length (merge dci_df mci_df) ≤ length mci_df)%nat.
Proof.
  intros dci_df mci_df.
  assert (Hm : NoDup (mci_Service <$> mci_df)).
  { apply (bool_decide_unpack _). vm_compute. exact I. }
  assert (Hd : NoDup (Service <$> dci_df)).
  { apply (bool_decide_unpack _). vm_compute. exact I. }
  split; [exact Hm|]. split; [exact Hd|].
  destruct (merge_unique_services dci_df mci_df Hm) as (Hsub & Hlen & Hrest).
  split; [exact Hsub|]. split; [exact Hlen|]. exact (Hrest Hd).
Defined.

(** X15. For a results table with the documented columns and no
    [MCI_Afferent] column, [compare_with_mci] returns a table only when a non-empty file name is
    given, the file exists and loads, and the join has at least one row; the
    table is then the join with its differences, and it is never empty.  It
    returns [None] when no file or an empty name is given, when the file
    does not exist or does not load, when the reference table has no
    [Service] or no [MCI_Afferent] column or has a [DCI] column of its own,
    and when the two tables share no service. *)
Theorem compare_with_mci_result (w : World) (dci_df : DciTable)
    (mci_data_file : option string) :
  documented dci_df →
  "MCI_Afferent" ∉ dci_columns dci_df →
  (∀ rows,
     compare_with_mci w dci_df mci_data_file = Some rows →
     rows ≠ [] ∧
     ∃ f mci_df,
       mci_data_file = Some f ∧ f ≠ EmptyString ∧
       path_exists w f = true ∧ read_mci_csv w f = Some mci_df ∧
       rows = assign_difference (merge (dci_rows dci_df) (mci_rows mci_df))) ∧
  (mci_data_file = None ∨ mci_data_file = Some EmptyString ∨
   (∃ f, mci_data_file = Some f ∧
         (path_exists w f = false ∨ read_mci_csv w f = None ∨
          ∃ mci_df,
            read_mci_csv w f = Some mci_df ∧
            (("Service" ∉ mci_columns mci_df) ∨
             ("MCI_Afferent" ∉ mci_columns mci_df) ∨
             "DCI" ∈ mci_columns mci_df ∨
             merge (dci_rows dci_df) (mci_rows mci_df) = []))) →
   compare_with_mci w dci_df mci_data_file = None).
Proof.
  intros _ _. split.
  - intros rows Hcmp.
    apply ValidateProperties.compare_with_mci_Some in Hcmp
      as (f & mci_df & -> & Hf & Hex & Hread & _ & _ & _ & _ & Hne & ->).
    split.
    + unfold assign_difference.
      by destruct (merge (dci_rows dci_df) (mci_rows mci_df)).
    + by exists f, mci_df.
  - unfold compare_with_mci.
    intros [->|[->|(f & -> & Hbad)]]; [done | done |].
    destruct (bool_decide (f ≠ EmptyString)); [|done]. cbn [andb].
    destruct Hbad as [->|[->|(mci_df & -> & Hbad)]].
    + done.
    + by destruct (path_exists w f).
    + destruct (path_exists w f); [|done].
      destruct Hbad as [Hno|[Hno|[Hyes|Hnil]]].
      * rewrite (bool_decide_false ("Service" ∈ mci_columns mci_df)) by done.
        by rewrite andb_false_r.
      * unfold merged_columns_readable.
        rewrite (bool_decide_false ("MCI_Afferent" ∈ mci_columns mci_df))
          by done.
        rewrite andb_false_r. cbn [andb]. by repeat case_match.
      * unfold merged_columns_readable.
        rewrite (bool_decide_false ("DCI" ∉ mci_columns mci_df)) by auto.
        rewrite andb_false_r. cbn [andb]. by repeat case_match.
      * rewrite Hnil. cbn [length].
        rewrite (bool_decide_false (0 < 0)%nat) by lia.
        by repeat case_match.
Qed.

Lemma compare_with_mci_result_witness :
  let w := mkWorld (λ _, None) (λ _, Some example_mci) (λ _, true) in
  let w' := mkWorld (λ _, None) (λ _, Some example_mci) (λ _, false) in
  let rows := assign_difference (merge (dci_rows example_dci)
                                       (mci_rows example_mci)) in
  documented example_dci ∧
  ("MCI_Afferent" ∉ dci_columns example_dci) ∧
  compare_with_mci w example_dci (Some "mci_data.csv") = Some rows ∧
  rows ≠ [] ∧
  compare_with_mci w' example_dci (Some "mci_data.csv") = None.
Proof.
  intros w w' rows.
  assert (Hdoc : documented example_dci).
  { unfold documented. cbn [example_dci dci_columns].
    repeat split; apply (bool_decide_unpack _); by vm_compute. }
  assert (Hna : "MCI_Afferent" ∉ dci_columns example_dci).
  { apply (bool_decide_unpack _). by vm_compute. }
  assert (H : compare_with_mci w example_dci (Some "mci_data.csv")
              = Some rows) by reflexivity.
  split; [exact Hdoc|]. split; [exact Hna|]. split; [exact H|]. split.
  - exact (proj1 (proj1 (compare_with_mci_result w example_dci
                           (Some "mci_data.csv") Hdoc Hna) rows H)).
  - apply (proj2 (compare_with_mci_result w' example_dci
                    (Some "mci_data.csv") Hdoc Hna)).
    right. right. exists "mci_data.csv". split; [reflexivity|].
    left. reflexivity.
Defined.

(** X16. A joined row is reported as a significant difference exactly when
    the binary64 difference of its two scores is above the binary64 value of
    0.3, in absolute value, and the reported rows keep the order of the
    join.  With scores 0.8 and 0.5 the binary64 difference is
    0.30000000000000004, above the binary64 value of 0.3, so the row is
    reported although the scores are 0.3 apart on paper; with scores 0.5 and
    0.2 the difference is the binary64 value of 0.3 and the row is not
    reported. *)
Theorem high_diff_binary64 :
  (∀ (merged : list MergedRow) (c : ComparisonRow),
     c ∈ high_diff (assign_difference merged) ↔
     c ∈ assign_difference merged ∧
     (Py.float_lit (3 # 10)
      < Qcabs (Py.fsub (m_DCI (c_row c)) (m_MCI_Afferent (c_row c))))%Qc) ∧
  (∀ merged : list MergedRow,
     high_diff (assign_difference merged)
     `sublist_of` assign_difference merged) ∧
  (m_Service ∘ c_row)
    <$> high_diff
          (assign_difference
             [mkMergedRow "svcA" (Py.float_lit (8 # 10)) (Some "High")
                          (Py.float_lit (5 # 10)) None;
              mkMergedRow "svcB" (Py.float_lit (5 # 10)) (Some "Moderate")
                          (Py.float_lit (2 # 10)) None;
              mkMergedRow "svcC" (Py.float_lit (1 # 10)) (Some "Low")
                          (Py.float_lit (5 # 10)) None])
  = ["svcA"; "svcC"] ∧
  Py.fsub (Py.float_lit (8 # 10)) (Py.float_lit (5 # 10))
  = Q2Qc (5404319552844596 # 18014398509481984) ∧
  Py.fsub (Py.float_lit (5 # 10)) (Py.float_lit (2 # 10))
  = Py.float_lit (3 # 10) ∧
  Py.float_lit (3 # 10) = Q2Qc (5404319552844595 # 18014398509481984).
Proof.
  split; [|split; [|split; [|split; [|split]]]].
  - intros merged c. unfold high_diff. rewrite list_elem_of_filter. split.
    + intros [Hgt Hc]. split; [exact Hc|].
      apply ValidateProperties.elem_of_assign_difference in Hc as [_ Hd].
      by rewrite <- Hd.
    + intros [Hc Hgt]. split; [|exact Hc].
      apply ValidateProperties.elem_of_assign_difference in Hc as [_ Hd].
      by rewrite Hd.
  - intros merged. unfold high_diff. apply sublist_filter.
  - apply (bool_decide_unpack _). by vm_compute.
  - apply (bool_decide_unpack _). by vm_compute.
  - apply (bool_decide_unpack _). by vm_compute.
  - apply (bool_decide_unpack _). by vm_compute.
Qed.

Lemma high_diff_binary64_witness :
  let low := mkMergedRow "svcC" (Py.float_lit (1 # 10)) (Some "Low")
                         (Py.float_lit (5 # 10)) None in
  let c := mkComparisonRow low
             (Qcabs (Py.fsub (m_DCI low) (m_MCI_Afferent low))) in
  c ∈ assign_difference [low] ∧
  (Py.float_lit (3 # 10)
   < Qcabs (Py.fsub (m_DCI (c_row c)) (m_MCI_Afferent (c_row c))))%Qc ∧
  c ∈ high_diff (assign_difference [low]).
Proof.
  intros low c.
  assert (Hc : c ∈ assign_difference [low]) by apply list_elem_of_here.
  assert (Hgt : (Py.float_lit (3 # 10)
                 < Qcabs (Py.fsub (m_DCI (c_row c))
                                  (m_MCI_Afferent (c_row c))))%Qc).
  { vm_compute. reflexivity. }
  split; [exact Hc|]. split; [exact Hgt|].
  exact (proj2 (proj1 high_diff_binary64 [low] c) (conj Hc Hgt)).
Defined.

(** X17. When a reference file is named but does not exist or does not
    load, the run on a results table with the documented columns produces
    neither a comparison nor a template: the template is not a fall-back for
    an unusable reference file. *)
Theorem main_unusable_reference (w : World) (argv : list string)
    (df : DciTable) :
  (2 < length argv)%nat →
  Py.item argv 2 ≠ EmptyString →
  read_dci_csv w (Py.item argv 1) = Some df →
  documented df →
  path_exists w (Py.item argv 2) = false ∨
  read_mci_csv w (Py.item argv 2) = None →
  ValidateRmtDci.main w argv
  = inr (Compared (analyze_dci_results (dci_rows df)) None).
Proof.
  intros Hlen Hname Hread (Hservice & Hdci & Hstatus) Hbad.
  unfold ValidateRmtDci.main.
  rewrite bool_decide_false by lia.
  unfold load_dci_results. rewrite Hread.
  rewrite (bool_decide_true ("DCI" ∈ _)) by done. cbv beta iota.
  unfold call_analyze_dci_results.
  rewrite (bool_decide_true ("Status" ∈ _)) by done.
  rewrite (bool_decide_true ("Service" ∈ _)) by done.
  cbn [Py.bind Py.ret].
  rewrite (bool_decide_true (2 < length argv)%nat) by done.
  rewrite bool_decide_true by done.
  do 2 f_equal. unfold compare_with_mci.
  rewrite bool_decide_true by done. cbn [andb].
  destruct (path_exists w (Py.item argv 2)); [|done].
  destruct Hbad as [?|Hnone]; [done | by rewrite Hnone].
Qed.

Lemma main_unusable_reference_witness :
  let w := mkWorld (λ _, Some example_dci) (λ _, None) (λ _, false) in
  let argv := ["validate_rmt_dci.py"; "dci_output_rmt.csv"; "mci_data.csv"] in
  (2 < length argv)%nat ∧
  Py.item argv 2 ≠ EmptyString ∧
  read_dci_csv w (Py.item argv 1) = Some example_dci ∧
  documented example_dci ∧
  path_exists w (Py.item argv 2) = false ∧
  ValidateRmtDci.main w argv
  = inr (Compared (analyze_dci_results (dci_rows example_dci)) None).
Proof.
  intros w argv.
  assert (Hlen : (2 < length argv)%nat) by (simpl; lia).
  assert (Hname : Py.item argv 2 ≠ EmptyString) by discriminate.
  assert (Hread : read_dci_csv w (Py.item argv 1) = Some example_dci)
    by reflexivity.
  assert (Hdoc : documented example_dci).
  { unfold documented. cbn [example_dci dci_columns].
    repeat split; apply (bool_decide_unpack _); by vm_compute. }
  assert (Hex : path_exists w (Py.item argv 2) = false) by reflexivity.
  split; [exact Hlen|]. split; [exact Hname|]. split; [exact Hread|].
  split; [exact Hdoc|]. split; [exact Hex|].
  exact (main_unusable_reference w argv example_dci Hlen Hname Hread Hdoc
           (or_introl Hex)).
Defined.

(** X18. When the results table loads with the documented columns and no
    reference file is named (no third argument, or an empty one), the run
    produces the template: one row per row of the table, in order, with the
    same service and score and with the three remaining cells empty. *)
Theorem main_template (w : World) (argv : list string) (df : DciTable) :
  (2 ≤ length argv)%nat →
  read_dci_csv w (Py.item argv 1) = Some df →
  documented df →
  length argv = 2%nat ∨ Py.item argv 2 = EmptyString →
  ∃ template,
    ValidateRmtDci.main w argv
    = inr (Templated (analyze_dci_results (dci_rows df)) template) ∧
    t_Service <$> template = Service <$> dci_rows df ∧
    t_DCI <$> template = DCI <$> dci_rows df ∧
    Forall (λ t, t_MCI_Afferent t = EmptyString ∧
                 t_MCI_Efferent t = EmptyString ∧
                 t_Notes t = EmptyString) template.
Proof.
  intros Hlen Hread (Hservice & Hdci & Hstatus) Hnoref.
  exists (create_comparison_template (dci_rows df)).
  split; [|split; [|split]].
  - unfold ValidateRmtDci.main. rewrite bool_decide_false by lia.
    unfold load_dci_results. rewrite Hread.
    rewrite (bool_decide_true ("DCI" ∈ _)) by done. cbv beta iota.
    unfold call_analyze_dci_results, call_create_comparison_template.
    rewrite (bool_decide_true ("DCI" ∈ _)) by done.
    rewrite (bool_decide_true ("Status" ∈ _)) by done.
    rewrite (bool_decide_true ("Service" ∈ _)) by done.
    cbn [Py.bind Py.ret].
    case_bool_decide as H2; [|done].
    destruct Hnoref as [?|Hempty]; [lia|].
    rewrite Hempty. by rewrite bool_decide_false by auto.
  - unfold create_comparison_template. rewrite <- list_fmap_compose.
    by apply list_fmap_ext.
  - unfold create_comparison_template. rewrite <- list_fmap_compose.
    by apply list_fmap_ext.
  - unfold create_comparison_template. apply Forall_fmap, Forall_forall.
    by intros r _.
Qed.

Lemma main_template_witness :
  let df := mkDciTable ["Service"; "DCI"; "Status"]
              [mkDciRow "svcA" (Py.float_lit (8 # 10)) (Some "High");
               mkDciRow "svcB" 0%Qc (Some "No")] in
  let w := mkWorld (λ _, Some df) (λ _, None) (λ _, false) in
  let argv := ["validate_rmt_dci.py"; "dci_output_rmt.csv"] in
  (2 ≤ length argv)%nat ∧
  read_dci_csv w (Py.item argv 1) = Some df ∧
  documented df ∧
  length argv = 2%nat ∧
  ∃ template,
    ValidateRmtDci.main w argv
    = inr (Templated (analyze_dci_results (dci_rows df)) template) ∧
    t_Service <$> template = Service <$> dci_rows df ∧
    t_DCI <$> template = DCI <$> dci_rows df ∧
    Forall (λ t, t_MCI_Afferent t = EmptyString ∧
                 t_MCI_Efferent t = EmptyString ∧
                 t_Notes t = EmptyString) template.
Proof.
  intros df w argv.
  assert (Hlen : (2 ≤ length argv)%nat) by (simpl; lia).
  assert (Hread : read_dci_csv w (Py.item argv 1) = Some df) by reflexivity.
  assert (Hdoc : documented df).
  { unfold documented. cbn [df dci_columns].
    repeat split; apply (bool_decide_unpack _); by vm_compute. }
  assert (H2 : length argv = 2%nat) by reflexivity.
  split; [exact Hlen|]. split; [exact Hread|]. split; [exact Hdoc|].
  split; [exact H2|].
  exact (main_template w argv df Hlen Hread Hdoc (or_introl H2)).
Defined.

Lemma Qc_min_spec x y :
  (Qc_min x y = x ∨ Qc_min x y = y) ∧
  (Qc_min x y ≤ x)%Qc ∧ (Qc_min x y ≤ y)%Qc.
Proof.
  unfold Qc_min. destruct (decide (x ≤ y)%Qc) as [H|H].
  - split; [by left|]. split; [apply Qcle_refl | done].
  - apply Qclt_nge, Qclt_le_weak in H.
    split; [by right|]. split; [done | apply Qcle_refl].
Qed.

Lemma Qc_max_spec x y :
  (Qc_max x y = x ∨ Qc_max x y = y) ∧
  (x ≤ Qc_max x y)%Qc ∧ (y ≤ Qc_max x y)%Qc.
Proof.
  unfold Qc_max. destruct (decide (x ≤ y)%Qc) as [H|H].
  - split; [by right|]. split; [done | apply Qcle_refl].
  - apply Qclt_nge, Qclt_le_weak in H.
    split; [by left|]. split; [apply Qcle_refl | done].
Qed.

Lemma foldl_min_spec rest :
  ∀ x, foldl Qc_min x rest ∈ x :: rest ∧
       Forall (λ y, (foldl Qc_min x rest ≤ y)%Qc) (x :: rest).
Proof.
  induction rest as [|y rest IH]; intros x.
  - simpl. split; [apply list_elem_of_here|].
    constructor; [apply Qcle_refl | constructor].
  - cbn [foldl]. destruct (IH (Qc_min x y)) as [Hin Hall].
    destruct (Qc_min_spec x y) as (Hcase & Hx & Hy).
    apply Forall_cons in Hall as [Hm Hall]. split.
    + apply elem_of_cons in Hin as [->|Hin].
      * destruct Hcase as [Hc|Hc]; rewrite Hc;
          [apply list_elem_of_here
          | apply list_elem_of_further, list_elem_of_here].
      * by do 2 apply list_elem_of_further.
    + constructor; [by etrans|]. constructor; [by etrans | done].
Qed.

Lemma foldl_max_spec rest :
  ∀ x, foldl Qc_max x rest ∈ x :: rest ∧
       Forall (λ y, (y ≤ foldl Qc_max x rest)%Qc) (x :: rest).
Proof.
  induction rest as [|y rest IH]; intros x.
  - simpl. split; [apply list_elem_of_here|].
    constructor; [apply Qcle_refl | constructor].
  - cbn [foldl]. destruct (IH (Qc_max x y)) as [Hin Hall].
    destruct (Qc_max_spec x y) as (Hcase & Hx & Hy).
    apply Forall_cons in Hall as [Hm Hall]. split.
    + apply elem_of_cons in Hin as [->|Hin].
      * destruct Hcase as [Hc|Hc]; rewrite Hc;
          [apply list_elem_of_here
          | apply list_elem_of_further, list_elem_of_here].
      * by do 2 apply list_elem_of_further.
    + constructor; [by etrans|]. constructor; [by etrans | done].
Qed.

(** X19. For a table with at least one row the printed minimum and maximum
    are scores of rows of the table and bound every score; when the maximum
    is below the binary64 value of 0.7 the high-coupling list is empty, and
    when the minimum is above 0 the list of isolated services is empty. *)
Theorem score_range (df : list DciRow) :
  df ≠ [] →
  ∃ lo hi,
    score_min df = Some lo ∧ score_max df = Some hi ∧
    lo ∈ (DCI <$> df) ∧ hi ∈ (DCI <$> df) ∧
    Forall (λ r, (lo ≤ DCI r ≤ hi)%Qc) df ∧
    ((hi < Py.float_lit (7 # 10))%Qc →
     high_coupling (analyze_dci_results df) = []) ∧
    ((0 < lo)%Qc → isolated (analyze_dci_results df) = []).
Proof.
  intros Hne. destruct df as [|r df]; [done|].
  unfold score_min, score_max. rewrite fmap_cons. cbn [series_min series_max].
  destruct (foldl_min_spec (DCI <$> df) (DCI r)) as [Hlo_in Hlo].
  destruct (foldl_max_spec (DCI <$> df) (DCI r)) as [Hhi_in Hhi].
  set (lo := foldl Qc_min (DCI r) (DCI <$> df)) in *.
  set (hi := foldl Qc_max (DCI r) (DCI <$> df)) in *.
  rewrite <- fmap_cons in Hlo, Hhi.
  rewrite Forall_fmap in Hlo, Hhi.
  exists lo, hi. split; [done|]. split; [done|].
  split; [done|]. split; [done|]. split; [|split].
  - apply Forall_forall. intros r' Hr'. split.
    + by apply (proj1 (Forall_forall _ _) Hlo).
    + by apply (proj1 (Forall_forall _ _) Hhi).
  - intros Hlt. cbn [analyze_dci_results high_coupling].
    apply elem_of_nil_inv. intros r' Hr'.
    apply list_elem_of_filter in Hr' as [Hge Hr'].
    apply (proj1 (Forall_forall _ _) Hhi) in Hr'. cbn [compose] in Hr'.
    apply (Qcle_not_lt _ _ (Qcle_trans _ _ _ Hge Hr')). exact Hlt.
  - intros Hpos. cbn [analyze_dci_results isolated].
    apply elem_of_nil_inv. intros r' Hr'.
    apply list_elem_of_filter in Hr' as [Hz Hr'].
    apply (proj1 (Forall_forall _ _) Hlo) in Hr'. cbn [compose] in Hr'.
    rewrite Hz in Hr'. by apply Qcle_not_lt in Hr'.
Qed.

Lemma score_range_witness :
  let df := [mkDciRow "svcA" (Py.float_lit (5 # 10)) (Some "Moderate");
             mkDciRow "svcB" (Py.float_lit (1 # 10)) (Some "Low");
             mkDciRow "svcC" (Py.float_lit (6 # 10)) (Some "Moderate")] in
  df ≠ [] ∧
  ∃ lo hi,
    score_min df = Some lo ∧ score_max df = Some hi ∧
    lo ∈ (DCI <$> df) ∧ hi ∈ (DCI <$> df) ∧
    Forall (λ r, (lo ≤ DCI r ≤ hi)%Qc) df ∧
    ((hi < Py.float_lit (7 # 10))%Qc →
     high_coupling (analyze_dci_results df) = []) ∧
    ((0 < lo)%Qc → isolated (analyze_dci_results df) = []).
Proof.
  intros df.
  assert (Hne : df ≠ []) by discriminate.
  split; [exact Hne|].
  exact (score_range df Hne).
Defined.

(** X20. When the results table loads with a [DCI] column but without a
    [Status] column, the run stops in the analysis on the [KeyError] of
    [df['Status']], outside every [try]: no comparison and no template is
    produced, and the process ends with status 1. *)
Theorem main_without_status (w : World) (argv : list string)
    (df : DciTable) :
  (2 ≤ length argv)%nat →
  read_dci_csv w (Py.item argv 1) = Some df →
  "DCI" ∈ dci_columns df →
  "Status" ∉ dci_columns df →
  ValidateRmtDci.main w argv = inl (Py.KeyError "Status") ∧
  Py.exit_status (ValidateRmtDci.main w argv) = 1%Z.
Proof.
  intros Hlen Hread Hdci Hstatus.
  assert (Hmain : ValidateRmtDci.main w argv = inl (Py.KeyError "Status")).
  { unfold ValidateRmtDci.main. rewrite bool_decide_false by lia.
    unfold load_dci_results. rewrite Hread.
    rewrite (bool_decide_true ("DCI" ∈ _)) by done. cbv beta iota.
    unfold call_analyze_dci_results.
    by rewrite (bool_decide_false ("Status" ∈ _)) by done. }
  by rewrite Hmain.
Qed.

Lemma main_without_status_witness :
  let df := mkDciTable ["Service"; "DCI"; "MCI_Afferent"; "MCI_Efferent";
                        "Notes"]
              [mkDciRow "svcA" (Py.float_lit (8 # 10)) None] in
  let w := mkWorld (λ _, Some df) (λ _, None) (λ _, true) in
  let argv := ["validate_rmt_dci.py"; "mci_comparison_template.csv"] in
  ValidateRmtDci.main w argv = inl (Py.KeyError "Status") ∧
  Py.exit_status (ValidateRmtDci.main w argv) = 1%Z.
Proof.
  intros df w argv.
  apply (main_without_status w argv df).
  - simpl. lia.
  - reflexivity.
  - apply (bool_decide_unpack _). by vm_compute.
  - apply (bool_decide_unpack _). by vm_compute.
Defined.

End ValidateExtras.
